(** * Order / cart / inventory core of the e-commerce backend

    A shallow embedding of [src/controllers/CartController.js],
    [src/controllers/OrderController.js], the order routes, the [auth]
    middlewares, the error middleware and the Product and Order schemas.

    Conventions of the embedding.
    - A handler [async (req, res, next) => ...] becomes a function from the
      database (and the parts of [req] it reads) to the database after the
      call and the response: either [res.status(s).json(...)] or [next(err)].
    - A document loaded with [findById]/[findOne] is a private copy; only
      [save()]/[create()] write to the database, so a handler that leaves
      through [next(err)] before saving returns the database it received.
    - A MongoDB ObjectId is modelled by its value, a natural number;
      [toString()] is injective on ObjectIds, so [a.toString() === b]
      is equality of the values when [b] is the string [toString()] gives
      for an ObjectId. The controllers are modelled for requests that
      name ids by that string; the module [RawIds] models [addToCart] for
      the other spellings of an id.
    - JavaScript numbers that hold stock, prices and quantities are
      modelled as integers ([Z]); the module [Fractional] models the path
      of [createOrder] from quantity to stock for numbers that are not
      integers.
    - [Date.now()] and the ObjectId generated for a new document are inputs
      of the handler that needs them. *)

From stdpp Require Import gmap strings list fin_maps.
From Stdlib Require Import ZArith QArith Lia.

Open Scope Z_scope.

Abbreviation ObjectId := N (only parsing).

(** ** Errors and responses *)

(** [ErrorHandler] is the class of the error middleware file; the other two
    constructors are the errors thrown by mongoose validation and by the
    JavaScript runtime, which carry no [statusCode]. *)
Inductive Error :=
| ErrorHandler (message : string) (statusCode : Z)
| ValidationError (path : string)
| TypeError (message : string).

#[global] Instance Error_eq_dec : EqDecision Error.
Proof. solve_decision. Defined.

(** [errorMiddleware]: [err.statusCode = err.statusCode || 500], then
    [res.status(err.statusCode)]. The result is the HTTP status. The
    branches for duplicate keys, web tokens and cast errors rewrite errors
    that the handlers below do not raise. *)
Definition errorMiddleware (err : Error) : Z :=
  match err with
  | ErrorHandler _ statusCode => if statusCode =? 0 then 500 else statusCode
  | ValidationError _ => 500
  | TypeError _ => 500
  end.

Inductive Response (A : Type) :=
| Json (status : Z) (message : string) (data : A)
| Next (err : Error).
Arguments Json {A} status message data.
Arguments Next {A} err.

Definition succeeded {A} (r : Response A) : bool :=
  match r with Json _ _ _ => true | Next _ => false end.

(** Modelled from the spec: middlewares/CatchAsyncErrors.js, the wrapper of
    every handler, is not among the sources. The specification has all
    errors recovered at the request boundary and rendered by the error
    middleware, none crashing the process: an error thrown inside a handler
    (a rejected [save()], a [TypeError]) ends the request like
    [next(err)]. *)
Definition catchAsyncErrors {A} (thrown : Error) : Response A := Next thrown.

(** The error kinds of the specification, as the handlers raise them. *)
Definition InsufficientStock (err : Error) : Prop :=
  ∃ message, err = ErrorHandler message 400
             ∧ String.prefix "Insufficient stock" message = true.

Definition InvalidTransition (err : Error) : Prop :=
  err = ErrorHandler "Cannot cancel order that has been shipped or delivered" 400.

Definition Forbidden (err : Error) : Prop :=
  ∃ message, err = ErrorHandler message 401 ∨ err = ErrorHandler message 403.

(** ** Documents *)

Module User.
Record t := mk { id : ObjectId; role : string }.
End User.

Module Product.
(** The paths of [productSchema] the core reads or writes. *)
Record t := mk { stock : Z; price : Z }.
Definition set_stock (v : Z) (p : t) : t := {| stock := v; price := price p |}.
End Product.

Module CartItem.
Record t := mk {
  _id : ObjectId;
  product : ObjectId;
  quantity : Z;
  size : option string;
  color : option string;
  price : Z
}.
Definition set_quantity (v : Z) (i : t) : t :=
  {| _id := _id i; product := product i; quantity := v;
     size := size i; color := color i; price := price i |}.
Definition key (i : t) : ObjectId * option string * option string :=
  (product i, size i, color i).
End CartItem.

Module Cart.
Record t := mk { user : ObjectId; items : list CartItem.t }.
Definition set_items (v : list CartItem.t) (c : t) : t :=
  {| user := user c; items := v |}.
End Cart.

Module OrderItem.
Record t := mk {
  product : ObjectId;
  name : string;
  quantity : Z;
  size : string;
  price : Z;
  image : option string
}.
End OrderItem.

Module ShippingAddress.
Record t := mk {
  street : string; city : string; state : string;
  zipCode : string; country : string
}.
End ShippingAddress.

Module PaymentResult.
Record t := mk {
  id : option string;
  status : option string;
  updateTime : option string;
  emailAddress : option string
}.
End PaymentResult.

Module Order.
Record t := mk {
  _id : ObjectId;
  user : ObjectId;
  orderItems : list OrderItem.t;
  shippingAddress : ShippingAddress.t;
  paymentMethod : string;
  paymentResult : option PaymentResult.t;
  itemsPrice : Z;
  taxPrice : Z;
  shippingPrice : Z;
  totalPrice : Z;
  isPaid : bool;
  paidAt : option Z;
  isDelivered : bool;
  deliveredAt : option Z;
  status : string;
  trackingNumber : option string
}.

Definition set_status (v : string) (o : t) : t :=
  mk (_id o) (user o) (orderItems o) (shippingAddress o) (paymentMethod o)
     (paymentResult o) (itemsPrice o) (taxPrice o) (shippingPrice o)
     (totalPrice o) (isPaid o) (paidAt o) (isDelivered o) (deliveredAt o)
     v (trackingNumber o).

Definition set_trackingNumber (v : option string) (o : t) : t :=
  mk (_id o) (user o) (orderItems o) (shippingAddress o) (paymentMethod o)
     (paymentResult o) (itemsPrice o) (taxPrice o) (shippingPrice o)
     (totalPrice o) (isPaid o) (paidAt o) (isDelivered o) (deliveredAt o)
     (status o) v.

Definition set_delivered (now : Z) (o : t) : t :=
  mk (_id o) (user o) (orderItems o) (shippingAddress o) (paymentMethod o)
     (paymentResult o) (itemsPrice o) (taxPrice o) (shippingPrice o)
     (totalPrice o) (isPaid o) (paidAt o) true (Some now)
     (status o) (trackingNumber o).

Definition set_paid (now : Z) (r : PaymentResult.t) (o : t) : t :=
  mk (_id o) (user o) (orderItems o) (shippingAddress o) (paymentMethod o)
     (Some r) (itemsPrice o) (taxPrice o) (shippingPrice o)
     (totalPrice o) true (Some now) (isDelivered o) (deliveredAt o)
     (status o) (trackingNumber o).

(** [enum] of [orderSchema.status]. *)
Definition statusEnum : list string :=
  ["Processing"; "Confirmed"; "Shipped"; "In Transit"; "Delivered";
   "Cancelled"]%string.

(** [enum] of [orderSchema.paymentMethod]. *)
Definition paymentMethodEnum : list string :=
  ["COD"; "Card"; "UPI"; "NetBanking"]%string.
End Order.

(** ** The database *)

(** The three collections of the core. Carts are looked up by their owner
    only ([Cart.findOne({ user })]), so the cart collection is keyed by the
    user's id. *)
Record Db := mkDb {
  products : gmap N Product.t;
  carts : gmap N Cart.t;
  orders : gmap N Order.t
}.

Definition set_products (v : gmap N Product.t) (db : Db) : Db :=
  {| products := v; carts := carts db; orders := orders db |}.
Definition set_carts (v : gmap N Cart.t) (db : Db) : Db :=
  {| products := products db; carts := v; orders := orders db |}.
Definition set_orders (v : gmap N Order.t) (db : Db) : Db :=
  {| products := products db; carts := carts db; orders := v |}.

(** [product.save()]. The handlers of the core modify the path [stock]
    only; its schema has [min: 0], so mongoose rejects the save with a
    validation error when the new value is negative, and writes the
    document otherwise. *)
Definition Product_save (pid : ObjectId) (p : Product.t)
    (ps : gmap N Product.t) : gmap N Product.t + Error :=
  if bool_decide (0 ≤ Product.stock p) then inl (<[pid := p]> ps)
  else inr (ValidationError "stock").

(** Modelled from the spec: the cart schema (models/Cart.js) is not among
    the sources. The data model gives a cart item a product reference, a
    quantity that is a positive integer, a size, a color and a unit price,
    so [cart.save()] rejects an item whose quantity is below 1. *)
Definition cartItemValid (i : CartItem.t) : bool := 1 <=? CartItem.quantity i.

(** [cart.save()] of the cart of [owner]: the one [Cart.findOne({ user })]
    returned for that user, or the one just built for them. *)
Definition Cart_save (owner : ObjectId) (cart : Cart.t) (db : Db)
    : Db + Error :=
  if forallb cartItemValid (Cart.items cart)
  then inl (set_carts (<[owner := cart]> (carts db)) db)
  else inr (ValidationError "items.quantity").

(** [order.save()] of the order that [Order.findById(id)] returned: the
    document is written back under the same id. Of the paths the handlers
    assign, only [status] has a validator that can fail, its [enum]. *)
Definition Order_save (id : ObjectId) (o : Order.t) (db : Db) : Db + Error :=
  if bool_decide (Order.status o ∈ Order.statusEnum)
  then inl (set_orders (<[id := o]> (orders db)) db)
  else inr (ValidationError "status").

(** ** CartController.js *)

Module CartController.

(** [getCart]: the cart of the user, created empty on first access. *)
Definition getCart (db : Db) (user : User.t) : Db * Response Cart.t :=
  match carts db !! User.id user with
  | Some cart => (db, Json 200 "" cart)
  | None =>
      let cart := Cart.mk (User.id user) [] in
      (set_carts (<[User.id user := cart]> (carts db)) db, Json 200 "" cart)
  end.

(** [req.body] of [POST /api/cart]; [quantity] defaults to 1 when absent. *)
Record AddToCartBody := mkAddToCartBody {
  productId : ObjectId;
  quantity : option Z;
  size : option string;
  color : option string
}.

(** The predicate of [cart.items.findIndex] in [addToCart]. *)
Definition sameSelection (body : AddToCartBody) (item : CartItem.t) : Prop :=
  CartItem.product item = productId body
  ∧ CartItem.size item = size body
  ∧ CartItem.color item = color body.

#[global] Instance sameSelection_dec body item :
  Decision (sameSelection body item).
Proof. unfold sameSelection. apply _. Defined.

(** [addToCart]. [newId] is the [_id] mongoose gives to a pushed item. *)
Definition addToCart (db : Db) (user : User.t) (body : AddToCartBody)
    (newId : ObjectId) : Db * Response Cart.t :=
  let quantity := default 1 (quantity body) in
  match products db !! productId body with
  | None => (db, Next (ErrorHandler "Product not found" 404))
  | Some product =>
      if Product.stock product <? quantity
      then (db, Next (ErrorHandler "Insufficient stock" 400))
      else
        let cart := default (Cart.mk (User.id user) [])
                            (carts db !! User.id user) in
        match list_find (sameSelection body) (Cart.items cart) with
        | Some (existingItemIndex, existing) =>
            let newQuantity := CartItem.quantity existing + quantity in
            if Product.stock product <? newQuantity
            then (db, Next (ErrorHandler
                              "Insufficient stock for requested quantity" 400))
            else
              let cart' :=
                Cart.set_items
                  (<[existingItemIndex :=
                       CartItem.set_quantity newQuantity existing]>
                     (Cart.items cart)) cart in
              match Cart_save (User.id user) cart' db with
              | inl db' => (db', Json 200 "Item added to cart" cart')
              | inr err => (db, catchAsyncErrors err)
              end
        | None =>
            let cart' :=
              Cart.set_items
                (Cart.items cart ++
                 [CartItem.mk newId (productId body) quantity (size body)
                              (color body) (Product.price product)]) cart in
            match Cart_save (User.id user) cart' db with
            | inl db' => (db', Json 200 "Item added to cart" cart')
            | inr err => (db, catchAsyncErrors err)
            end
        end
  end.

(** [updateCartItem]; [cart.items.id(itemId)] is the item with that [_id]. *)
Definition updateCartItem (db : Db) (user : User.t) (itemId : ObjectId)
    (quantity : Z) : Db * Response Cart.t :=
  if quantity <? 1
  then (db, Next (ErrorHandler "Quantity must be at least 1" 400))
  else
    match carts db !! User.id user with
    | None => (db, Next (ErrorHandler "Cart not found" 404))
    | Some cart =>
        match list_find (λ item, CartItem._id item = itemId) (Cart.items cart) with
        | None => (db, Next (ErrorHandler "Item not found in cart" 404))
        | Some (index, item) =>
            match products db !! CartItem.product item with
            | None =>
                (db, catchAsyncErrors (TypeError "Cannot read properties of null"))
            | Some product =>
                if Product.stock product <? quantity
                then (db, Next (ErrorHandler "Insufficient stock" 400))
                else
                  let cart' :=
                    Cart.set_items
                      (<[index := CartItem.set_quantity quantity item]>
                         (Cart.items cart)) cart in
                  match Cart_save (User.id user) cart' db with
                  | inl db' => (db', Json 200 "Cart item updated" cart')
                  | inr err => (db, catchAsyncErrors err)
                  end
            end
        end
    end.

(** [removeFromCart]: [itemId] is matched against the item's [_id] and
    against its product's id. *)
Definition removeFromCart (db : Db) (user : User.t) (itemId : ObjectId)
    : Db * Response Cart.t :=
  match carts db !! User.id user with
  | None => (db, Next (ErrorHandler "Cart not found" 404))
  | Some cart =>
      let itemsBefore := length (Cart.items cart) in
      let items' :=
        filter (λ item, CartItem._id item ≠ itemId
                        ∧ CartItem.product item ≠ itemId) (Cart.items cart) in
      if bool_decide (length items' = itemsBefore)
      then (db, Next (ErrorHandler "Item not found in cart" 404))
      else
        let cart' := Cart.set_items items' cart in
        match Cart_save (User.id user) cart' db with
        | inl db' => (db', Json 200 "Item removed from cart" cart')
        | inr err => (db, catchAsyncErrors err)
        end
  end.

(** [clearCart]. *)
Definition clearCart (db : Db) (user : User.t) : Db * Response Cart.t :=
  match carts db !! User.id user with
  | None => (db, Next (ErrorHandler "Cart not found" 404))
  | Some cart =>
      let cart' := Cart.set_items [] cart in
      match Cart_save (User.id user) cart' db with
      | inl db' => (db', Json 200 "Cart cleared" cart')
      | inr err => (db, catchAsyncErrors err)
      end
  end.

End CartController.

(** ** OrderController.js *)

Module OrderController.

(** One element of [req.body.orderItems], as the client sent it: every
    property may be absent. *)
Record OrderItemBody := mkOrderItemBody {
  product : option ObjectId;
  name : option string;
  quantity : option Z;
  size : option string;
  price : option Z;
  image : option string
}.

Record ShippingAddressBody := mkShippingAddressBody {
  street : option string;
  city : option string;
  state : option string;
  zipCode : option string;
  country : option string
}.

Record CreateOrderBody := mkCreateOrderBody {
  orderItems : option (list OrderItemBody);
  shippingAddress : ShippingAddressBody;
  paymentMethod : option string;
  itemsPrice : option Z;
  taxPrice : option Z;
  shippingPrice : option Z;
  totalPrice : option Z
}.

(** A [required] string path: present and not empty. *)
Definition requiredString (v : option string) : option string :=
  s ← v; if bool_decide (s = ""%string) then None else Some s.

(** Validation of one element of [orderSchema.orderItems]: [product],
    [name], [quantity], [size] and [price] are required, [quantity] has
    [min: 1]. *)
Definition validateOrderItem (item : OrderItemBody) : option OrderItem.t :=
  p ← product item;
  n ← requiredString (name item);
  q ← quantity item;
  s ← requiredString (size item);
  pr ← price item;
  if bool_decide (1 ≤ q)
  then Some (OrderItem.mk p n q s pr (image item))
  else None.

Definition validateShippingAddress (a : ShippingAddressBody)
    : option ShippingAddress.t :=
  st ← requiredString (street a);
  ci ← requiredString (city a);
  sa ← requiredString (state a);
  zc ← requiredString (zipCode a);
  co ← requiredString (Some (default "India"%string (country a)));
  Some (ShippingAddress.mk st ci sa zc co).

(** [Order.create({ user, orderItems, ... })]: the schema's defaults are
    filled in and its validators run; [None] when one of them rejects
    the document. An absent [orderItems] becomes the empty array. *)
Definition Order_create (newId : ObjectId) (user : User.t)
    (body : CreateOrderBody) : option Order.t :=
  items ← mapM validateOrderItem (default [] (orderItems body));
  address ← validateShippingAddress (shippingAddress body);
  method ← paymentMethod body;
  if bool_decide (method ∈ Order.paymentMethodEnum)
  then Some (Order.mk newId (User.id user) items address method None
               (default 0 (itemsPrice body)) (default 0 (taxPrice body))
               (default 0 (shippingPrice body)) (default 0 (totalPrice body))
               false None false None "Processing" None)
  else None.

(** The loop [for (const item of orderItems)] of [createOrder], over the
    items of the request body: the product is looked up again for every
    item, and the first rejected save ends the loop with the earlier saves
    in the database. *)
Fixpoint decrementStock (items : list OrderItemBody)
    (ps : gmap N Product.t) : gmap N Product.t * option Error :=
  match items with
  | [] => (ps, None)
  | item :: rest =>
      match product item with
      | None => decrementStock rest ps
      | Some pid =>
          match ps !! pid with
          | None => decrementStock rest ps
          | Some p =>
              match quantity item with
              | None => (ps, Some (ValidationError "stock"))
              | Some q =>
                  match Product_save pid
                          (Product.set_stock (Product.stock p - q) p) ps with
                  | inl ps' => decrementStock rest ps'
                  | inr err => (ps, Some err)
                  end
              end
          end
      end
  end.

(** [createOrder]. [newId] is the [_id] of the created order. *)
Definition createOrder (db : Db) (user : User.t) (body : CreateOrderBody)
    (newId : ObjectId) : Db * Response Order.t :=
  match orderItems body with
  | Some [] => (db, Next (ErrorHandler "No order items" 400))
  | _ =>
      match Order_create newId user body with
      | None => (db, catchAsyncErrors (ValidationError "Order validation failed"))
      | Some order =>
          let db1 := set_orders (<[newId := order]> (orders db)) db in
          match orderItems body with
          | None => (db1, catchAsyncErrors (TypeError "orderItems is not iterable"))
          | Some items =>
              match decrementStock items (products db1) with
              | (ps, Some err) => (set_products ps db1, catchAsyncErrors err)
              | (ps, None) =>
                  (set_products ps db1,
                   Json 201 "Order created successfully" order)
              end
          end
      end
  end.

(** The guard shared by [getOrderById] and [cancelOrder]:
    [order.user.toString() !== req.user.id && req.user.role !== "admin"]. *)
Definition notOwnerNorAdmin (order : Order.t) (user : User.t) : bool :=
  negb (bool_decide (Order.user order = User.id user))
  && negb (bool_decide (User.role user = "admin"%string)).

(** [getOrderById], for an order whose owner [populate("user")] finds;
    [OrderRequests.getOrderById] has the case of an owner that was
    deleted. *)
Definition getOrderById (db : Db) (user : User.t) (id : ObjectId)
    : Db * Response Order.t :=
  match orders db !! id with
  | None => (db, Next (ErrorHandler "Order not found" 404))
  | Some order =>
      if notOwnerNorAdmin order user
      then (db, Next (ErrorHandler "Not authorized to view this order" 401))
      else (db, Json 200 "" order)
  end.

(** [req.body] of [PUT /api/orders/:id/pay]. *)
Record PayerBody := mkPayerBody { email_address : option string }.

Record PayBody := mkPayBody {
  id : option string;
  status : option string;
  update_time : option string;
  payer : option PayerBody
}.

(** [updateOrderToPaid]; [req.user] is not read. *)
Definition updateOrderToPaid (db : Db) (user : User.t) (id : ObjectId)
    (body : PayBody) (now : Z) : Db * Response Order.t :=
  match orders db !! id with
  | None => (db, Next (ErrorHandler "Order not found" 404))
  | Some order =>
      match payer body with
      | None => (db, catchAsyncErrors (TypeError "Cannot read properties of undefined"))
      | Some p =>
          let order' :=
            Order.set_paid now
              (PaymentResult.mk (OrderController.id body) (status body)
                 (update_time body) (email_address p)) order in
          match Order_save id order' db with
          | inl db' => (db', Json 200 "Order updated to paid" order')
          | inr err => (db, catchAsyncErrors err)
          end
      end
  end.

Record StatusBody := mkStatusBody {
  newStatus : option string;
  trackingNumber : option string
}.

(** A JavaScript string is truthy when it is present and not empty. *)
Definition truthy (v : option string) : option string :=
  s ← v; if bool_decide (s = ""%string) then None else Some s.

(** [updateOrderStatus]. *)
Definition updateOrderStatus (db : Db) (user : User.t) (id : ObjectId)
    (body : StatusBody) (now : Z) : Db * Response Order.t :=
  match orders db !! id with
  | None => (db, Next (ErrorHandler "Order not found" 404))
  | Some order =>
      let order1 :=
        Order.set_status
          (default (Order.status order) (truthy (newStatus body))) order in
      let order2 :=
        match truthy (trackingNumber body) with
        | Some t => Order.set_trackingNumber (Some t) order1
        | None => order1
        end in
      let order3 :=
        if bool_decide (newStatus body = Some "Delivered"%string)
        then Order.set_delivered now order2 else order2 in
      match Order_save id order3 db with
      | inl db' => (db', Json 200 "Order status updated successfully" order3)
      | inr err => (db, catchAsyncErrors err)
      end
  end.

(** The loop of [cancelOrder] over the items recorded in the order. *)
Fixpoint restoreStock (items : list OrderItem.t) (ps : gmap N Product.t)
    : gmap N Product.t * option Error :=
  match items with
  | [] => (ps, None)
  | item :: rest =>
      match ps !! OrderItem.product item with
      | None => restoreStock rest ps
      | Some p =>
          match Product_save (OrderItem.product item)
                  (Product.set_stock
                     (Product.stock p + OrderItem.quantity item) p) ps with
          | inl ps' => restoreStock rest ps'
          | inr err => (ps, Some err)
          end
      end
  end.

(** [cancelOrder]. *)
Definition cancelOrder (db : Db) (user : User.t) (id : ObjectId)
    : Db * Response Order.t :=
  match orders db !! id with
  | None => (db, Next (ErrorHandler "Order not found" 404))
  | Some order =>
      if notOwnerNorAdmin order user
      then (db, Next (ErrorHandler "Not authorized to cancel this order" 401))
      else if bool_decide (Order.status order = "Shipped"%string)
              || bool_decide (Order.status order = "Delivered"%string)
      then (db, Next (ErrorHandler
                        "Cannot cancel order that has been shipped or delivered"
                        400))
      else
        let order' := Order.set_status "Cancelled" order in
        match Order_save id order' db with
        | inr err => (db, catchAsyncErrors err)
        | inl db1 =>
            match restoreStock (Order.orderItems order') (products db1) with
            | (ps, Some err) => (set_products ps db1, catchAsyncErrors err)
            | (ps, None) =>
                (set_products ps db1,
                 Json 200 "Order cancelled successfully" order')
            end
        end
  end.

End OrderController.

(** ** middlewares/auth.js and the order routes *)

(** What [protect] finds out about the bearer token of a request: there is
    none, it names a user that is not stored, or it names a stored user. A
    token that [jwt.verify] rejects makes [protect] throw, and is not among
    the cases modelled. *)
Inductive Credentials :=
| NoToken
| UnknownUser
| Authenticated (user : User.t).

(** [protect]: the handler runs with [req.user] set, or the request ends
    with status 401. *)
Definition protect {A} (who : Credentials) (db : Db)
    (handler : User.t → Db * Response A) : Db * Response A :=
  match who with
  | NoToken => (db, Next (ErrorHandler "Not authorized to access this route" 401))
  | UnknownUser => (db, Next (ErrorHandler "User not found" 401))
  | Authenticated user => handler user
  end.

(** [admin]: lets the request through when [req.user.role === "admin"]. *)
Definition admin {A} (user : User.t) (db : Db)
    (handler : Db * Response A) : Db * Response A :=
  if bool_decide (User.role user = "admin"%string) then handler
  else (db, Next (ErrorHandler "Not authorized as admin" 403)).

Module OrderRoutes.

(** [router.get("/:id", protect, getOrderById)] *)
Definition get_id (db : Db) (who : Credentials) (id : ObjectId) :=
  protect who db (λ user, OrderController.getOrderById db user id).

(** [router.put("/:id/pay", protect, updateOrderToPaid)] *)
Definition put_id_pay (db : Db) (who : Credentials) (id : ObjectId)
    (body : OrderController.PayBody) (now : Z) :=
  protect who db (λ user, OrderController.updateOrderToPaid db user id body now).

(** [router.put("/:id/status", protect, admin, updateOrderStatus)] *)
Definition put_id_status (db : Db) (who : Credentials) (id : ObjectId)
    (body : OrderController.StatusBody) (now : Z) :=
  protect who db (λ user,
    admin user db (OrderController.updateOrderStatus db user id body now)).

(** [router.put("/:id/cancel", protect, cancelOrder)] *)
Definition put_id_cancel (db : Db) (who : Credentials) (id : ObjectId) :=
  protect who db (λ user, OrderController.cancelOrder db user id).

End OrderRoutes.

(** ** Sequences of operations *)

(** One request to a handler of the cart or of the order controller, with
    the user [protect] attached to it. *)
Inductive Operation :=
| GetCart (user : User.t)
| AddToCart (user : User.t) (body : CartController.AddToCartBody)
    (newId : ObjectId)
| UpdateCartItem (user : User.t) (itemId : ObjectId) (quantity : Z)
| RemoveFromCart (user : User.t) (itemId : ObjectId)
| ClearCart (user : User.t)
| CreateOrder (user : User.t) (body : OrderController.CreateOrderBody)
    (newId : ObjectId)
| UpdateOrderToPaid (user : User.t) (id : ObjectId)
    (body : OrderController.PayBody) (now : Z)
| UpdateOrderStatus (user : User.t) (id : ObjectId)
    (body : OrderController.StatusBody) (now : Z)
| CancelOrder (user : User.t) (id : ObjectId).

(** The database after one operation. *)
Definition step (db : Db) (op : Operation) : Db :=
  match op with
  | GetCart user => (CartController.getCart db user).1
  | AddToCart user body newId => (CartController.addToCart db user body newId).1
  | UpdateCartItem user itemId quantity =>
      (CartController.updateCartItem db user itemId quantity).1
  | RemoveFromCart user itemId => (CartController.removeFromCart db user itemId).1
  | ClearCart user => (CartController.clearCart db user).1
  | CreateOrder user body newId =>
      (OrderController.createOrder db user body newId).1
  | UpdateOrderToPaid user id body now =>
      (OrderController.updateOrderToPaid db user id body now).1
  | UpdateOrderStatus user id body now =>
      (OrderController.updateOrderStatus db user id body now).1
  | CancelOrder user id => (OrderController.cancelOrder db user id).1
  end.

(** The database after a sequence of operations, first operation first. *)
Definition run (db : Db) (ops : list Operation) : Db := foldl step db ops.

(** ** Invariants of the stored documents *)

(** Every stored product satisfies [stock: { min: 0 }]. *)
Definition stockNonNegative (ps : gmap N Product.t) : Prop :=
  map_Forall (λ _ p, 0 ≤ Product.stock p) ps.

(** Every stored order item satisfies [quantity: { min: 1 }]. *)
Definition quantitiesPositive (os : gmap N Order.t) : Prop :=
  map_Forall (λ _ o, Forall (λ i, 1 ≤ OrderItem.quantity i) (Order.orderItems o)) os.

(** The state of a database whose documents all passed their schema. *)
Definition valid (db : Db) : Prop :=
  stockNonNegative (products db) ∧ quantitiesPositive (orders db).

#[global] Instance valid_dec db : Decision (valid db).
Proof. unfold valid, stockNonNegative, quantitiesPositive. apply _. Defined.

(** ** Vocabulary of the statements *)

(** The stock of every stored product moved by [delta] of its id. *)
Definition withStockDelta (delta : N → Z) (ps : gmap N Product.t)
    : gmap N Product.t :=
  map_imap (λ pid p,
    Some (Product.set_stock (Product.stock p + delta pid) p)) ps.

(** The quantity the items of a request ask of product [pid]. *)
Fixpoint requested (pid : N) (items : list OrderController.OrderItemBody) : Z :=
  match items with
  | [] => 0
  | item :: rest =>
      (if bool_decide (OrderController.product item = Some pid)
       then default 0 (OrderController.quantity item) else 0)
      + requested pid rest
  end.

(** The quantity the items of a stored order record for product [pid]. *)
Fixpoint recorded (pid : N) (items : list OrderItem.t) : Z :=
  match items with
  | [] => 0
  | item :: rest =>
      (if bool_decide (OrderItem.product item = pid)
       then OrderItem.quantity item else 0)
      + recorded pid rest
  end.

(** The item a stock save rejects: its product is stored and cannot cover
    the quantity (or no quantity was sent). *)
Definition rejected (item : OrderController.OrderItemBody)
    (ps : gmap N Product.t) : Prop :=
  ∃ pid p, OrderController.product item = Some pid ∧ ps !! pid = Some p
    ∧ ∀ q, OrderController.quantity item = Some q → Product.stock p < q.

(** All-or-nothing for one call of [createOrder]: a new order is returned
    and every listed product gave its requested quantity, or an error is
    returned and no stock has changed. *)
Definition allOrNothing (db : Db) (user : User.t)
    (body : OrderController.CreateOrderBody) (newId : ObjectId) : Prop :=
  let '(db', response) := OrderController.createOrder db user body newId in
  (succeeded response = true
   ∧ products db' =
       withStockDelta
         (λ pid, - requested pid (default [] (OrderController.orderItems body)))
         (products db))
  ∨ (succeeded response = false ∧ products db' = products db).

(** The requester owns the order or is an admin. *)
Definition ownerOrAdmin (order : Order.t) (user : User.t) : Prop :=
  Order.user order = User.id user ∨ User.role user = "admin"%string.

(** The order has left the warehouse. *)
Definition shippedOrDelivered (order : Order.t) : Prop :=
  Order.status order = "Shipped"%string
  ∨ Order.status order = "Delivered"%string.

(** The units in stock, over all products. *)
Definition totalStock (ps : gmap N Product.t) : Z :=
  map_fold (λ _ p acc, Product.stock p + acc) 0 ps.

(** The units the items of an order give back to the products that are
    still stored. *)
Fixpoint restorable (items : list OrderItem.t) (ps : gmap N Product.t) : Z :=
  match items with
  | [] => 0
  | item :: rest =>
      (if bool_decide (is_Some (ps !! OrderItem.product item))
       then OrderItem.quantity item else 0)
      + restorable rest ps
  end.

(** The database after [n] calls of [cancelOrder] for the same order. *)
Definition cancelTimes (n : nat) (db : Db) (user : User.t) (id : ObjectId)
    : Db :=
  Nat.iter n (λ d, (OrderController.cancelOrder d user id).1) db.

(** The items of the user's cart; none when the user has no cart yet. *)
Definition cartItems (db : Db) (user : User.t) : list CartItem.t :=
  default [] (Cart.items <$> carts db !! User.id user).

(** The identity key an [addToCart] request selects. *)
Definition selection (body : CartController.AddToCartBody)
    : ObjectId * option string * option string :=
  (CartController.productId body, CartController.size body,
   CartController.color body).

(** At most one item per (product, size, color). *)
Definition merged (items : list CartItem.t) : Prop :=
  NoDup (CartItem.key <$> items).

(** Every stored cart has at most one item per key. *)
Definition cartsMerged (db : Db) : Prop :=
  map_Forall (λ _ cart, merged (Cart.items cart)) (carts db).

(** ** Concrete data for the examples *)

Module Scenario.

Definition alice : User.t := User.mk 1 "user".
Definition bob : User.t := User.mk 2 "user".
Definition root : User.t := User.mk 3 "admin".

Definition shirt : N := 10.
Definition dress : N := 11.

(** A shop with five shirts and no dress left. *)
Definition catalog : gmap N Product.t :=
  <[shirt := Product.mk 5 499]> (<[dress := Product.mk 0 899]> ∅).

Definition shop : Db := mkDb catalog ∅ ∅.

Definition address : OrderController.ShippingAddressBody :=
  OrderController.mkShippingAddressBody
    (Some "12 Park Street"%string) (Some "Kolkata"%string)
    (Some "West Bengal"%string) (Some "700016"%string) None.

Definition line (pid : N) (q : Z) : OrderController.OrderItemBody :=
  OrderController.mkOrderItemBody
    (Some pid) (Some "Item"%string) (Some q) (Some "M"%string) (Some 499) None.

Definition checkout (items : list OrderController.OrderItemBody)
    : OrderController.CreateOrderBody :=
  OrderController.mkCreateOrderBody
    (Some items) address (Some "COD"%string) None None None None.

(** Alice orders two shirts. *)
Definition placed : Db :=
  run shop [CreateOrder alice (checkout [line shirt 2]) 100].

(** The order as [createOrder] stored it. *)
Definition shirtOrder : Order.t :=
  Order.mk 100 1 [OrderItem.mk shirt "Item" 2 "M" 499 None]
    (ShippingAddress.mk "12 Park Street" "Kolkata" "West Bengal" "700016"
       "India")
    "COD" None 0 0 0 0 false None false None "Processing" None.

(** An admin marks the order as shipped. *)
Definition shipped : Db :=
  run placed
    [UpdateOrderStatus root 100
       (OrderController.mkStatusBody (Some "Shipped"%string) None) 0].

(** Alice cancels her order before it is shipped. *)
Definition cancelled : Db := run placed [CancelOrder alice 100].

(** A day in the shop: a cart is filled, all five shirts are ordered, a
    sixth is asked for, and the first order is cancelled. *)
Definition day : list Operation :=
  [AddToCart alice (CartController.mkAddToCartBody shirt (Some 3) None None) 50;
   CreateOrder alice (checkout [line shirt 5]) 100;
   CreateOrder bob (checkout [line shirt 1]) 101;
   CancelOrder alice 100;
   ClearCart alice].

(** Alice has three red shirts of size M in her cart. *)
Definition redShirt (q : Z) : CartController.AddToCartBody :=
  CartController.mkAddToCartBody shirt (Some q) (Some "M"%string)
    (Some "red"%string).

Definition withCart : Db := run shop [AddToCart alice (redShirt 3) 50].

(** All five shirts have been ordered. *)
Definition soldOut : Db :=
  run shop [CreateOrder alice (checkout [line shirt 5]) 100].

Definition receipt : OrderController.PayBody :=
  OrderController.mkPayBody (Some "PAY-1"%string) (Some "COMPLETED"%string)
    (Some "2024-01-01"%string)
    (Some (OrderController.mkPayerBody (Some "bob@example.com"%string))).

End Scenario.

(** Facts about the concrete databases of the examples are decided by
    evaluation. *)
Ltac by_evaluation := apply (bool_decide_unpack _); vm_compute; reflexivity.

(** ** Further vocabulary *)

(** The user [protect] attached to the request of an operation. *)
Definition actor (op : Operation) : User.t :=
  match op with
  | GetCart user | AddToCart user _ _ | UpdateCartItem user _ _
  | RemoveFromCart user _ | ClearCart user | CreateOrder user _ _
  | UpdateOrderToPaid user _ _ _ | UpdateOrderStatus user _ _ _
  | CancelOrder user _ => user
  end.

(** The operation is a request to the cart controller. *)
Definition cartOperation (op : Operation) : Prop :=
  match op with
  | GetCart _ | AddToCart _ _ _ | UpdateCartItem _ _ _
  | RemoveFromCart _ _ | ClearCart _ => True
  | _ => False
  end.

(** The operation is a [createOrder] whose new document gets the id [id]. *)
Definition creates (id : ObjectId) (op : Operation) : Prop :=
  match op with
  | CreateOrder _ _ newId => newId = id
  | _ => False
  end.

(** The paths of an order that [Order.create] fills from the request: its
    id, owner, items, address, payment method and prices. *)
Definition sameSnapshot (o o' : Order.t) : Prop :=
  Order._id o' = Order._id o
  ∧ Order.user o' = Order.user o
  ∧ Order.orderItems o' = Order.orderItems o
  ∧ Order.shippingAddress o' = Order.shippingAddress o
  ∧ Order.paymentMethod o' = Order.paymentMethod o
  ∧ Order.itemsPrice o' = Order.itemsPrice o
  ∧ Order.taxPrice o' = Order.taxPrice o
  ∧ Order.shippingPrice o' = Order.shippingPrice o
  ∧ Order.totalPrice o' = Order.totalPrice o.

(** Every stored order has a status of the schema's [enum]. *)
Definition statusesInEnum (db : Db) : Prop :=
  map_Forall (λ _ o, Order.status o ∈ Order.statusEnum) (orders db).

(** The item is what [removeFromCart] looks for under [itemId]. *)
Definition matches (itemId : ObjectId) (item : CartItem.t) : Prop :=
  CartItem._id item = itemId ∨ CartItem.product item = itemId.

(** ** Further data for the examples *)

Module Story.

Definition toStatus (s : string) : OrderController.StatusBody :=
  OrderController.mkStatusBody (Some s) None.

(** The order of two shirts has been delivered. *)
Definition delivered : Db :=
  run Scenario.placed [UpdateOrderStatus Scenario.root 100 (toStatus "Delivered") 7].

(** It is paid, set back to Processing, cancelled by its owner, and Bob
    places an order of his own. *)
Definition afterwards : list Operation :=
  [UpdateOrderToPaid Scenario.alice 100 Scenario.receipt 8;
   UpdateOrderStatus Scenario.root 100 (toStatus "Processing") 9;
   CancelOrder Scenario.alice 100;
   CreateOrder Scenario.bob (Scenario.checkout [Scenario.line Scenario.shirt 1]) 101;
   AddToCart Scenario.bob (Scenario.redShirt 1) 51].

(** What Alice does with her cart. *)
Definition shopping : list Operation :=
  [GetCart Scenario.alice;
   AddToCart Scenario.alice (Scenario.redShirt 2) 50;
   AddToCart Scenario.alice (Scenario.redShirt 1) 51;
   UpdateCartItem Scenario.alice 50 5;
   RemoveFromCart Scenario.alice Scenario.shirt;
   ClearCart Scenario.alice].

End Story.

(** ** Requests of an authenticated user that address one order *)

Module OrderRequests.

(** [getOrderById] with the document [populate("user", ...)] puts in
    [order.user]: the owner, or [null] when the owner was deleted, and
    then [order.user._id] throws. *)
Definition getOrderById (db : Db) (user : User.t) (id : ObjectId)
    (owner : option User.t) : Db * Response Order.t :=
  match orders db !! id with
  | None => (db, Next (ErrorHandler "Order not found" 404))
  | Some order =>
      match owner with
      | None => (db, catchAsyncErrors (TypeError "Cannot read properties of null"))
      | Some _ =>
          if OrderController.notOwnerNorAdmin order user
          then (db, Next (ErrorHandler "Not authorized to view this order" 401))
          else (db, Json 200 "" order)
      end
  end.

(** A request to [/api/orders/:id], [/:id/pay], [/:id/status] or
    [/:id/cancel] that has passed [protect]. *)
Inductive Request :=
| GetOrder (owner : option User.t)
| Pay (body : OrderController.PayBody) (now : Z)
| SetStatus (body : OrderController.StatusBody) (now : Z)
| Cancel.

(** The middlewares and the handler the router runs after [protect]. *)
Definition handle (db : Db) (user : User.t) (id : ObjectId)
    (request : Request) : Db * Response Order.t :=
  match request with
  | GetOrder owner => getOrderById db user id owner
  | Pay body now => OrderController.updateOrderToPaid db user id body now
  | SetStatus body now =>
      admin user db (OrderController.updateOrderStatus db user id body now)
  | Cancel => OrderController.cancelOrder db user id
  end.

End OrderRequests.

(** The payment receipt [updateOrderToPaid] stores for a request body. *)
Definition receiptOf (body : OrderController.PayBody)
    (payer : OrderController.PayerBody) : PaymentResult.t :=
  PaymentResult.mk (OrderController.id body) (OrderController.status body)
    (OrderController.update_time body) (OrderController.email_address payer).

(** ** What a request was answered *)

(** The error of a response, if it is one. *)
Definition failure {A} (response : Response A) : option Error :=
  match response with
  | Json _ _ _ => None
  | Next err => Some err
  end.

(** The database after an operation and the error it was answered with. *)
Definition outcome (db : Db) (op : Operation) : Db * option Error :=
  match op with
  | GetCart user => prod_map id failure (CartController.getCart db user)
  | AddToCart user body newId =>
      prod_map id failure (CartController.addToCart db user body newId)
  | UpdateCartItem user itemId quantity =>
      prod_map id failure (CartController.updateCartItem db user itemId quantity)
  | RemoveFromCart user itemId =>
      prod_map id failure (CartController.removeFromCart db user itemId)
  | ClearCart user => prod_map id failure (CartController.clearCart db user)
  | CreateOrder user body newId =>
      prod_map id failure (OrderController.createOrder db user body newId)
  | UpdateOrderToPaid user oid body now =>
      prod_map id failure (OrderController.updateOrderToPaid db user oid body now)
  | UpdateOrderStatus user oid body now =>
      prod_map id failure (OrderController.updateOrderStatus db user oid body now)
  | CancelOrder user oid =>
      prod_map id failure (OrderController.cancelOrder db user oid)
  end.

(** The operation is a request to [createOrder]. *)
Definition orderCreation (op : Operation) : Prop :=
  match op with
  | CreateOrder _ _ _ => True
  | _ => False
  end.

(** ** The error middleware in full *)

Module ErrorMiddleWare.

(** The properties of a JavaScript error the middleware reads.
    [keyValue] holds [Object.keys(err.keyValue)], [errors] the messages of
    [Object.values(err.errors)] when [err.errors] is set. An absent
    [message] is the empty string. *)
Record JsError := mkJsError {
  name : string;
  message : string;
  statusCode : option Z;
  code : option Z;
  keyValue : list string;
  path : string;
  errors : option (list string)
}.

(** The errors of the handlers as JavaScript errors: an [ErrorHandler]
    (an [Error] with a [statusCode]), a mongoose validation error, which
    has [errors] and no [statusCode], and a [TypeError]. The text of a
    validation message is not modelled; the name of the failed path stands
    for it. *)
Definition thrown (err : Error) : JsError :=
  match err with
  | ErrorHandler message statusCode =>
      mkJsError "Error" message (Some statusCode) None [] "" None
  | ValidationError failed =>
      mkJsError "ValidationError" failed None None [] "" (Some [failed])
  | TypeError message => mkJsError "TypeError" message None None [] "" None
  end.

(** [new ErrorHandler(message, statusCode)]: an [Error] with a status. *)
Definition ErrorHandler (message : string) (statusCode : Z) : JsError :=
  mkJsError "Error" message (Some statusCode) None [] "" None.

(** What the middleware does with the error: hand it to the default
    handler of Express, or send the JSON answer. *)
Inductive Outcome :=
| PassedOn (err : JsError)
| Sent (status : Z) (message : string).

(** [array.join(separator)] *)
Definition join (separator : string) (parts : list string) : string :=
  String.concat separator parts.

Definition errorMiddleware (err : JsError) (headersSent : bool) : Outcome :=
  let err :=
    mkJsError (name err)
      (if bool_decide (message err = ""%string)
       then "Internal server error"%string else message err)
      (Some (match statusCode err with
             | Some c => if c =? 0 then 500 else c
             | None => 500
             end))
      (code err) (keyValue err) (path err) (errors err) in
  let err :=
    if bool_decide (code err = Some 11000)
    then ErrorHandler ("Duplicate " ++ join "," (keyValue err) ++ " entered") 400
    else err in
  let err :=
    if bool_decide (name err = "jsonwebTokenError"%string)
    then ErrorHandler "JSON web token is invalid, Try Again!" 400 else err in
  let err :=
    if bool_decide (name err = "TokenExpiredError"%string)
    then ErrorHandler "JSON web token has expired, Try Again!" 400 else err in
  let err :=
    if bool_decide (name err = "CastError"%string)
    then ErrorHandler ("Invalid " ++ path err) 400 else err in
  let errorMessage :=
    match errors err with
    | Some messages => join " " messages
    | None => message err
    end in
  if headersSent then PassedOn err
  else Sent (default 500 (statusCode err)) errorMessage.

(** The error is one the middleware replaces by an [ErrorHandler] with
    status 400. *)
Definition rewritten (err : JsError) : Prop :=
  code err = Some 11000
  ∨ name err = "jsonwebTokenError"%string
  ∨ name err = "TokenExpiredError"%string
  ∨ name err = "CastError"%string.

End ErrorMiddleWare.

(** ** deleteProductImage of the product controller *)

Module ProductController.

(** [deleteProductImage], on the [images] of the product it addresses
    ([None] when [Product.findById] finds none). The handler reads and
    writes no other path of the product; a failure to delete the file at
    the media service is caught and logged, and the images are saved all
    the same. The result is the response and the images stored after the
    call. *)
Definition deleteProductImage (images : option (list string))
    (imageUrl : option string)
    : option (list string) * Response (list string) :=
  match OrderController.truthy imageUrl with
  | None => (images, Next (ErrorHandler "Image URL is required" 400))
  | Some url =>
      match images with
      | None => (images, Next (ErrorHandler "Product not found" 404))
      | Some stored =>
          if negb (bool_decide (url ∈ stored))
          then (images, Next (ErrorHandler "Image not found in product" 404))
          else if bool_decide (length stored ≤ 1)%nat
          then (images,
                Next (ErrorHandler "Product must have at least one image" 400))
          else
            let kept := filter (λ img, img ≠ url) stored in
            (Some kept, Json 200 "Product image deleted successfully" kept)
      end
  end.

End ProductController.

(** ** addToCart and the spelling of a product id *)

Module RawIds.

(** What the code can tell of the string a request gives for an id:
    whether mongoose casts it to an ObjectId, and whether it is the string
    [toString()] gives for that ObjectId (24 lower-case hexadecimal
    digits) or another spelling of it (upper-case digits). *)
Inductive IdString :=
| Canonical (id : ObjectId)
| Respelled (id : ObjectId)
| Malformed.

#[global] Instance IdString_eq_dec : EqDecision IdString.
Proof. solve_decision. Defined.

(** The cast of [findById] and of the [product] path of a cart item. *)
Definition cast (s : IdString) : option ObjectId :=
  match s with
  | Canonical id | Respelled id => Some id
  | Malformed => None
  end.

Record AddToCartBody := mkAddToCartBody {
  productId : IdString;
  quantity : option Z;
  size : option string;
  color : option string
}.

(** The predicate of [findIndex]: [item.product.toString() === productId]
    compares the canonical string of the stored id with the string of the
    request as it came. *)
Definition sameSelection (body : AddToCartBody) (item : CartItem.t) : Prop :=
  productId body = Canonical (CartItem.product item)
  ∧ CartItem.size item = size body
  ∧ CartItem.color item = color body.

#[global] Instance sameSelection_dec body item :
  Decision (sameSelection body item).
Proof. unfold sameSelection. apply _. Defined.

(** [addToCart] with the product id as the request spells it.
    [Product.findById] and the pushed item cast the string; [findIndex]
    does not. For a string that is no ObjectId, [findById] throws a
    CastError; the error is given here as the [ErrorHandler] by which the
    error middleware replaces it. *)
Definition addToCart (db : Db) (user : User.t) (body : AddToCartBody)
    (newId : ObjectId) : Db * Response Cart.t :=
  let quantity := default 1 (quantity body) in
  match cast (productId body) with
  | None => (db, catchAsyncErrors (ErrorHandler "Invalid _id" 400))
  | Some pid =>
      match products db !! pid with
      | None => (db, Next (ErrorHandler "Product not found" 404))
      | Some product =>
          if Product.stock product <? quantity
          then (db, Next (ErrorHandler "Insufficient stock" 400))
          else
            let cart := default (Cart.mk (User.id user) [])
                                (carts db !! User.id user) in
            match list_find (sameSelection body) (Cart.items cart) with
            | Some (existingItemIndex, existing) =>
                let newQuantity := CartItem.quantity existing + quantity in
                if Product.stock product <? newQuantity
                then (db, Next (ErrorHandler
                                  "Insufficient stock for requested quantity"
                                  400))
                else
                  let cart' :=
                    Cart.set_items
                      (<[existingItemIndex :=
                           CartItem.set_quantity newQuantity existing]>
                         (Cart.items cart)) cart in
                  match Cart_save (User.id user) cart' db with
                  | inl db' => (db', Json 200 "Item added to cart" cart')
                  | inr err => (db, catchAsyncErrors err)
                  end
            | None =>
                let cart' :=
                  Cart.set_items
                    (Cart.items cart ++
                     [CartItem.mk newId pid quantity (size body) (color body)
                        (Product.price product)]) cart in
                match Cart_save (User.id user) cart' db with
                | inl db' => (db', Json 200 "Item added to cart" cart')
                | inr err => (db, catchAsyncErrors err)
                end
            end
      end
  end.

(** The request of [CartController] with its id in the canonical
    spelling. *)
Definition canonical (body : CartController.AddToCartBody) : AddToCartBody :=
  mkAddToCartBody (Canonical (CartController.productId body))
    (CartController.quantity body) (CartController.size body)
    (CartController.color body).

End RawIds.

(** ** createOrder with numbers that are not integers *)

Module Fractional.

(** The path of [createOrder] from the quantity of an item to the stock of
    its product, with JavaScript numbers as rationals: the [Number] paths
    [quantity] of the order schema and [stock] of the product schema have
    [min] validators and no validator for integers. The other paths of
    the request are taken to be present and valid, as
    [OrderController.createOrder] has them. *)
Record OrderItemBody := mkOrderItemBody {
  product : ObjectId;
  quantity : Q
}.

(** [orderSchema]: [quantity: { type: Number, required: true, min: 1 }] *)
Definition validateOrderItem (item : OrderItemBody) : bool :=
  Qle_bool 1 (quantity item).

(** [product.save()] after [stock] was assigned:
    [stock: { type: Number, min: 0 }]. *)
Definition Product_save (pid : ObjectId) (stock : Q) (ps : gmap N Q)
    : option (gmap N Q) :=
  if Qle_bool 0 stock then Some (<[pid := stock]> ps) else None.

(** The loop of [createOrder]; [false] when a save was rejected. *)
Fixpoint decrementStock (items : list OrderItemBody) (ps : gmap N Q)
    : gmap N Q * bool :=
  match items with
  | [] => (ps, true)
  | item :: rest =>
      match ps !! product item with
      | None => decrementStock rest ps
      | Some stock =>
          match Product_save (product item) (stock - quantity item)%Q ps with
          | Some ps' => decrementStock rest ps'
          | None => (ps, false)
          end
      end
  end.

(** The stocks after [createOrder], and whether it answered 201. *)
Definition createOrder (ps : gmap N Q) (items : list OrderItemBody)
    : gmap N Q * bool :=
  match items with
  | [] => (ps, false)
  | _ => if forallb validateOrderItem items then decrementStock items ps
         else (ps, false)
  end.

(** The number is an integer. *)
Definition integer (x : Q) : Prop := ∃ z : Z, (x == inject_Z z)%Q.

End Fractional.

(** * Properties *)

(** ** Stock arithmetic *)

Lemma set_stock_same p : Product.set_stock (Product.stock p) p = p.
Proof. by destruct p. Qed.

Lemma lookup_withStockDelta delta ps pid :
  withStockDelta delta ps !! pid
  = (λ p, Product.set_stock (Product.stock p + delta pid) p) <$> ps !! pid.
Proof.
  unfold withStockDelta. rewrite map_lookup_imap.
  by destruct (ps !! pid).
Qed.

Lemma withStockDelta_zero ps : withStockDelta (λ _, 0) ps = ps.
Proof.
  apply map_eq; intros pid. rewrite lookup_withStockDelta.
  destruct (ps !! pid) as [p|]; simpl; [|done].
  by rewrite Z.add_0_r, set_stock_same.
Qed.

Lemma withStockDelta_ext d1 d2 ps :
  (∀ pid, d1 pid = d2 pid) → withStockDelta d1 ps = withStockDelta d2 ps.
Proof.
  intros E. apply map_eq; intros pid.
  by rewrite !lookup_withStockDelta, E.
Qed.

(** Saving one product first and moving all stocks afterwards is moving
    all stocks at once. *)
Lemma withStockDelta_insert delta ps pid p a :
  ps !! pid = Some p →
  withStockDelta delta (<[pid := Product.set_stock (Product.stock p + a) p]> ps)
  = withStockDelta (λ x, (if bool_decide (x = pid) then a else 0) + delta x) ps.
Proof.
  intros Hp. apply map_eq; intros x. rewrite !lookup_withStockDelta.
  destruct (decide (x = pid)) as [->|Hne].
  - rewrite lookup_insert_eq, Hp, bool_decide_eq_true_2 by done. simpl.
    f_equal. destruct p; simpl. unfold Product.set_stock; simpl. f_equal. lia.
  - rewrite lookup_insert_ne, bool_decide_eq_false_2 by done.
    by rewrite Z.add_0_l.
Qed.

Lemma Product_save_inl pid p ps ps' :
  Product_save pid p ps = inl ps' → ps' = <[pid := p]> ps ∧ 0 ≤ Product.stock p.
Proof.
  unfold Product_save. case_bool_decide; [|done]. by intros [= <-].
Qed.

Lemma Product_save_inr pid p ps err :
  Product_save pid p ps = inr err →
  err = ValidationError "stock" ∧ Product.stock p < 0.
Proof.
  unfold Product_save. case_bool_decide; [done|]. intros [= <-]. split; [done|lia].
Qed.

Lemma Product_save_ok pid p ps :
  0 ≤ Product.stock p → Product_save pid p ps = inl (<[pid := p]> ps).
Proof. intros H. unfold Product_save. by rewrite bool_decide_eq_true_2. Qed.

Lemma withStockDelta_ext_stored d1 d2 ps :
  (∀ pid, is_Some (ps !! pid) → d1 pid = d2 pid) →
  withStockDelta d1 ps = withStockDelta d2 ps.
Proof.
  intros E. apply map_eq; intros pid. rewrite !lookup_withStockDelta.
  destruct (ps !! pid) as [p|] eqn:Hp; simpl; [|done].
  by rewrite E.
Qed.

(** ** The stock loop of createOrder *)

Lemma decrementStock_outcome items ps :
  match OrderController.decrementStock items ps with
  | (ps', None) => ps' = withStockDelta (λ pid, - requested pid items) ps
  | (ps', Some err) =>
      ∃ k item, items !! k = Some item
        ∧ ps' = withStockDelta (λ pid, - requested pid (take k items)) ps
        ∧ rejected item ps'
  end.
Proof.
  revert ps. induction items as [|item rest IH]; intros ps; simpl.
  { symmetry. rewrite <- (withStockDelta_zero ps) at 2.
    by apply withStockDelta_ext. }
  destruct (OrderController.product item) as [pid0|] eqn:Hprod.
  2:{ specialize (IH ps).
      destruct (OrderController.decrementStock rest ps) as [ps' [err|]].
      - destruct IH as (k & it & Hk & -> & Hrej).
        exists (S k), it. split; [done|]. split; [|done].
        apply withStockDelta_ext; intros pid. simpl.
        by rewrite Hprod, bool_decide_eq_false_2.
      - rewrite IH. apply withStockDelta_ext; intros pid.
        by rewrite bool_decide_eq_false_2. }
  destruct (ps !! pid0) as [p|] eqn:Hp.
  2:{ specialize (IH ps).
      assert (∀ pid, is_Some (ps !! pid) →
                bool_decide (Some pid0 = Some pid) = false) as Hskip.
      { intros pid [x Hx]. apply bool_decide_eq_false_2.
        intros [= ->]. congruence. }
      destruct (OrderController.decrementStock rest ps) as [ps' [err|]].
      - destruct IH as (k & it & Hk & -> & Hrej).
        exists (S k), it. split; [done|]. split; [|done].
        apply withStockDelta_ext_stored. intros pid Hs. simpl.
        by rewrite Hprod, Hskip.
      - rewrite IH. apply withStockDelta_ext_stored. intros pid Hs.
        by rewrite Hskip. }
  destruct (OrderController.quantity item) as [q|] eqn:Hq.
  2:{ exists 0%nat, item. split; [done|]. split.
      - simpl. rewrite <- (withStockDelta_zero ps) at 1.
        by apply withStockDelta_ext.
      - exists pid0, p. rewrite Hq. by repeat split. }
  destruct (Product_save pid0 _ ps) as [ps1|err] eqn:Hsave.
  - apply Product_save_inl in Hsave as [-> Hge].
    specialize (IH (<[pid0:=Product.set_stock (Product.stock p - q) p]> ps)).
    replace (Product.stock p - q) with (Product.stock p + - q) in * by lia.
    destruct (OrderController.decrementStock rest _) as [ps' [err|]].
    + destruct IH as (k & it & Hk & -> & Hrej).
      exists (S k), it. split; [done|]. split; [|done].
      rewrite withStockDelta_insert by done.
      apply withStockDelta_ext; intros pid. simpl. rewrite Hprod, Hq. simpl.
      repeat case_bool_decide; simplify_eq; lia.
    + rewrite IH, withStockDelta_insert by done.
      apply withStockDelta_ext; intros pid. simpl.
      repeat case_bool_decide; simplify_eq; lia.
  - apply Product_save_inr in Hsave as [-> Hlt]. simpl in Hlt.
    exists 0%nat, item. split; [done|]. split.
    + simpl. rewrite <- (withStockDelta_zero ps) at 1.
      by apply withStockDelta_ext.
    + exists pid0, p. rewrite Hq. do 2 (split; [done|]).
      intros ? [= <-]. lia.
Qed.

(** ** createOrder *)

(** Two shirts are in stock and no dress: the order is stored, the shirts
    are taken, the dress is rejected and the call ends in an error. *)
Lemma createOrder_partial_state :
  ¬ allOrNothing Scenario.shop Scenario.alice
      (Scenario.checkout [Scenario.line Scenario.shirt 2;
                          Scenario.line Scenario.dress 1]) 100.
Proof.
  unfold allOrNothing.
  destruct (OrderController.createOrder _ _ _ _) as [db' response] eqn:E.
  vm_compute in E. injection E as <- <-.
  intros [[H _]|[_ H]]; [discriminate H|].
  apply (f_equal (λ m, Product.stock <$> m !! Scenario.shirt)) in H.
  vm_compute in H. discriminate H.
Qed.

(** C1 (amended). [createOrder] stores the order first and then takes the
    stock item by item. Its result is one of three: the new order is
    returned and every stored product gave the quantity requested of it; or
    an error is returned before anything was written (empty list, schema
    validation of the order); or an error is returned after the order was
    stored, and exactly the items before the rejected one have been taken
    from stock. *)
Theorem createOrder_outcomes db user body newId :
  let '(db', response) := OrderController.createOrder db user body newId in
  carts db' = carts db ∧
  ((∃ order items,
      response = Json 201 "Order created successfully" order
      ∧ OrderController.orderItems body = Some items
      ∧ OrderController.Order_create newId user body = Some order
      ∧ orders db' = <[newId := order]> (orders db)
      ∧ products db' =
          withStockDelta (λ pid, - requested pid items) (products db))
   ∨ (∃ err, response = Next err ∧ db' = db)
   ∨ (∃ err order,
        response = Next err
        ∧ OrderController.Order_create newId user body = Some order
        ∧ orders db' = <[newId := order]> (orders db)
        ∧ ((OrderController.orderItems body = None
            ∧ products db' = products db)
           ∨ (∃ items k item,
                OrderController.orderItems body = Some items
                ∧ items !! k = Some item
                ∧ products db' =
                    withStockDelta (λ pid, - requested pid (take k items))
                      (products db)
                ∧ rejected item (products db'))))).
Proof.
  unfold catchAsyncErrors, OrderController.createOrder.
  destruct (OrderController.orderItems body) as [items|] eqn:Hitems.
  - destruct (OrderController.Order_create newId user body) as [order|] eqn:Hc.
    2:{ destruct items; (split; [done|]); right; left; eauto. }
    destruct items as [|item rest].
    { split; [done|]. right; left; eauto. }
    set (items := item :: rest) in *.
    pose proof (decrementStock_outcome items (products db)) as Hloop.
    simpl products.
    destruct (OrderController.decrementStock items (products db))
      as [ps [err|]]; simpl; (split; [done|]).
    + destruct Hloop as (k & it & Hk & Hps & Hrej).
      right; right. exists err, order. do 3 (split; [done|]).
      right. exists items, k, it. by rewrite <- Hps.
    + left. exists order, items. by repeat split.
  - destruct (OrderController.Order_create newId user body) as [order|] eqn:Hc.
    + simpl. split; [done|]. right; right.
      exists (TypeError "orderItems is not iterable"), order.
      do 3 (split; [done|]). by left.
    + split; [done|]. right; left; eauto.
Qed.

(** ** Stock never becomes negative *)

Lemma Product_save_nonneg pid p ps ps' :
  stockNonNegative ps → Product_save pid p ps = inl ps' → stockNonNegative ps'.
Proof.
  intros Hps [-> Hp]%Product_save_inl. by apply map_Forall_insert_2.
Qed.

Lemma decrementStock_nonneg items ps :
  stockNonNegative ps →
  stockNonNegative (OrderController.decrementStock items ps).1.
Proof.
  revert ps. induction items as [|item rest IH]; intros ps Hps; simpl; [done|].
  repeat case_match; simpl; eauto using Product_save_nonneg.
Qed.

Lemma restoreStock_nonneg items ps :
  stockNonNegative ps →
  stockNonNegative (OrderController.restoreStock items ps).1.
Proof.
  revert ps. induction items as [|item rest IH]; intros ps Hps; simpl; [done|].
  repeat case_match; simpl; eauto using Product_save_nonneg.
Qed.

Lemma Cart_save_products owner cart db db' :
  Cart_save owner cart db = inl db' →
  products db' = products db ∧ orders db' = orders db.
Proof. unfold Cart_save. case_match; [|done]. by intros [= <-]. Qed.

Lemma Order_save_products id o db db' :
  Order_save id o db = inl db' →
  products db' = products db ∧ carts db' = carts db
  ∧ orders db' = <[id := o]> (orders db).
Proof. unfold Order_save. case_match; [|done]. by intros [= <-]. Qed.

(** The cart handlers never write to the product or order collections. *)
Lemma cart_handlers_leave_stock db op :
  match op with
  | GetCart _ | AddToCart _ _ _ | UpdateCartItem _ _ _
  | RemoveFromCart _ _ | ClearCart _ => True
  | _ => False
  end →
  products (step db op) = products db ∧ orders (step db op) = orders db.
Proof.
  destruct op; try done; intros _; simpl;
    unfold catchAsyncErrors, CartController.getCart, CartController.addToCart,
      CartController.updateCartItem, CartController.removeFromCart,
      CartController.clearCart;
    repeat case_match; simpl; try done;
    match goal with H : Cart_save _ _ _ = inl _ |- _ =>
      by apply Cart_save_products in H end.
Qed.

Lemma step_nonneg db op :
  stockNonNegative (products db) → stockNonNegative (products (step db op)).
Proof.
  intros Hdb.
  destruct op;
    match goal with |- context [step db ?o] =>
      try (by rewrite (proj1 (cart_handlers_leave_stock db o I)))
    end; simpl.
  - unfold catchAsyncErrors, OrderController.createOrder.
    repeat case_match; simpl; try done;
      match goal with
      | H : OrderController.decrementStock ?i ?ps = _ |- _ =>
          pose proof (decrementStock_nonneg i ps Hdb) as Hn;
          by rewrite H in Hn
      end.
  - unfold catchAsyncErrors, OrderController.updateOrderToPaid.
    repeat case_match; simpl; try done.
    match goal with H : Order_save _ _ _ = inl _ |- _ =>
      apply Order_save_products in H as (-> & _) end. done.
  - unfold catchAsyncErrors, OrderController.updateOrderStatus.
    repeat case_match; simpl; try done;
    match goal with H : Order_save _ _ _ = inl _ |- _ =>
      apply Order_save_products in H as (-> & _) end; done.
  - unfold catchAsyncErrors, OrderController.cancelOrder.
    repeat case_match; simpl; try done;
      match goal with
      | H : Order_save _ _ _ = inl ?d,
        H' : OrderController.restoreStock ?i (products ?d) = _ |- _ =>
          apply Order_save_products in H as (Hp & _);
          rewrite Hp in H';
          pose proof (restoreStock_nonneg i _ Hdb) as Hn;
          by rewrite H' in Hn
      end.
Qed.

(** C2 (amended). From a database in which no stock is negative, every
    sequence of cart and order operations leads to a database in which no
    stock is negative. (That the stock stays an integer holds for requests
    whose quantities are integers, as all quantities of this model are;
    [Fractional] has the other requests.) *)
Theorem stock_never_negative db ops :
  stockNonNegative (products db) →
  ∀ pid p, products (run db ops) !! pid = Some p → 0 ≤ Product.stock p.
Proof.
  intros Hdb. change (stockNonNegative (products (run db ops))).
  revert db Hdb. induction ops as [|op ops IH]; intros db Hdb; [done|].
  simpl. apply IH. by apply step_nonneg.
Qed.

(** *** Stored documents stay valid *)

Lemma validateOrderItem_quantity item stored :
  OrderController.validateOrderItem item = Some stored →
  1 ≤ OrderItem.quantity stored
  ∧ OrderController.product item = Some (OrderItem.product stored)
  ∧ OrderController.quantity item = Some (OrderItem.quantity stored).
Proof.
  unfold OrderController.validateOrderItem. intros H.
  by simplify_option_eq.
Qed.

Lemma Order_create_quantities newId user body order :
  OrderController.Order_create newId user body = Some order →
  Forall (λ i, 1 ≤ OrderItem.quantity i) (Order.orderItems order).
Proof.
  unfold OrderController.Order_create. intros H. simplify_option_eq.
  match goal with H : mapM _ _ = Some _ |- _ =>
    apply mapM_Some_1 in H; eapply Forall2_Forall_r; [exact H|] end.
  apply Forall_forall. intros stored _ item Hv.
  by apply validateOrderItem_quantity in Hv as [? _].
Qed.

Lemma quantitiesPositive_save id o o' db db' :
  quantitiesPositive (orders db) → orders db !! id = Some o →
  Order.orderItems o' = Order.orderItems o →
  Order_save id o' db = inl db' → quantitiesPositive (orders db').
Proof.
  intros Hdb Ho Hitems (_ & _ & ->)%Order_save_products.
  apply map_Forall_insert_2; [|done]. rewrite Hitems. exact (Hdb _ _ Ho).
Qed.

Lemma step_quantities db op :
  quantitiesPositive (orders db) → quantitiesPositive (orders (step db op)).
Proof.
  intros Hdb.
  destruct op;
    match goal with |- context [step db ?o] =>
      try (by rewrite (proj2 (cart_handlers_leave_stock db o I)))
    end; simpl.
  - unfold catchAsyncErrors, OrderController.createOrder.
    destruct (OrderController.Order_create newId user body) as [order|] eqn:Hc.
    + apply Order_create_quantities in Hc.
      repeat case_match; simpl; try done;
        by apply map_Forall_insert_2.
    + by repeat case_match.
  - unfold catchAsyncErrors, OrderController.updateOrderToPaid.
    destruct (orders db !! id) as [order|] eqn:Ho; [|done].
    destruct (OrderController.payer body); [|done].
    destruct (Order_save _ _ _) as [db'|] eqn:Hsave; [|done]. simpl.
    by apply (quantitiesPositive_save _ _ _ _ _ Hdb Ho) in Hsave.
  - unfold catchAsyncErrors, OrderController.updateOrderStatus.
    destruct (orders db !! id) as [order|] eqn:Ho; [|done].
    destruct (Order_save _ _ _) as [db'|] eqn:Hsave; [|done]. simpl.
    apply (quantitiesPositive_save _ _ _ _ _ Hdb Ho) in Hsave; [done|].
    by repeat case_match.
  - unfold catchAsyncErrors, OrderController.cancelOrder.
    destruct (orders db !! id) as [order|] eqn:Ho; [|done].
    destruct (OrderController.notOwnerNorAdmin order user); [done|].
    destruct (_ || _); [done|].
    destruct (Order_save _ _ _) as [db'|] eqn:Hsave; [|done].
    apply (quantitiesPositive_save _ _ _ _ _ Hdb Ho) in Hsave; [|done].
    by repeat case_match.
Qed.

Lemma run_valid db ops : valid db → valid (run db ops).
Proof.
  revert db. induction ops as [|op ops IH]; intros db Hdb; [done|].
  simpl. apply IH. destruct Hdb as [Hstock Hqty].
  split; [by apply step_nonneg|by apply step_quantities].
Qed.

(** ** cancelOrder *)

Lemma notOwnerNorAdmin_false order user :
  OrderController.notOwnerNorAdmin order user = false ↔ ownerOrAdmin order user.
Proof.
  unfold OrderController.notOwnerNorAdmin, ownerOrAdmin.
  rewrite andb_false_iff, !negb_false_iff, !bool_decide_eq_true. tauto.
Qed.

Lemma notOwnerNorAdmin_true order user :
  OrderController.notOwnerNorAdmin order user = true ↔ ¬ ownerOrAdmin order user.
Proof.
  rewrite <- notOwnerNorAdmin_false.
  destruct (OrderController.notOwnerNorAdmin order user); naive_solver.
Qed.

Lemma recorded_nonneg pid items :
  Forall (λ i, 1 ≤ OrderItem.quantity i) items → 0 ≤ recorded pid items.
Proof.
  induction 1 as [|item rest Hq _ IH]; simpl; [done|].
  case_bool_decide; lia.
Qed.

(** With valid documents no save is rejected, and the loop adds to every
    stored product the quantity the order recorded for it. *)
Lemma restoreStock_ok items ps :
  stockNonNegative ps →
  Forall (λ i, 1 ≤ OrderItem.quantity i) items →
  OrderController.restoreStock items ps
  = (withStockDelta (λ pid, recorded pid items) ps, None).
Proof.
  intros Hps Hq. revert ps Hps.
  induction Hq as [|item rest Hq _ IH]; intros ps Hps; simpl.
  { by rewrite withStockDelta_zero. }
  destruct (ps !! OrderItem.product item) as [p|] eqn:Hp.
  - pose proof (Hps _ _ Hp) as Hge. simpl in Hge.
    rewrite Product_save_ok by (simpl; lia).
    rewrite IH by (apply map_Forall_insert_2; [simpl; lia|done]).
    rewrite withStockDelta_insert by done. f_equal.
    apply withStockDelta_ext; intros pid.
    repeat case_bool_decide; simplify_eq; lia.
  - rewrite IH by done. f_equal. apply withStockDelta_ext_stored.
    intros pid [x Hx]. rewrite bool_decide_eq_false_2; [done|congruence].
Qed.

Lemma cancelOrder_succeeds db user id order :
  valid db → orders db !! id = Some order → ownerOrAdmin order user →
  ¬ shippedOrDelivered order →
  OrderController.cancelOrder db user id
  = (mkDb (withStockDelta (λ pid, recorded pid (Order.orderItems order))
             (products db))
          (carts db)
          (<[id := Order.set_status "Cancelled" order]> (orders db)),
     Json 200 "Order cancelled successfully"
       (Order.set_status "Cancelled" order)).
Proof.
  intros [Hstock Hqty] Horder Hauth Hstatus.
  unfold catchAsyncErrors, OrderController.cancelOrder. rewrite Horder.
  apply notOwnerNorAdmin_false in Hauth. rewrite Hauth.
  unfold shippedOrDelivered in Hstatus.
  rewrite !bool_decide_eq_false_2 by tauto. simpl.
  rewrite restoreStock_ok; [done|done|]. exact (Hqty _ _ Horder).
Qed.

Lemma cancelOrder_shipped db user id order :
  orders db !! id = Some order → shippedOrDelivered order →
  OrderController.cancelOrder db user id
  = (db, Next (if OrderController.notOwnerNorAdmin order user
               then ErrorHandler "Not authorized to cancel this order" 401
               else ErrorHandler
                      "Cannot cancel order that has been shipped or delivered"
                      400)).
Proof.
  intros Horder Hstatus. unfold catchAsyncErrors, OrderController.cancelOrder. rewrite Horder.
  destruct (OrderController.notOwnerNorAdmin order user); [done|].
  destruct Hstatus as [-> | ->]; done.
Qed.

Lemma withStockDelta_compose d1 d2 ps :
  withStockDelta d1 (withStockDelta d2 ps)
  = withStockDelta (λ pid, d2 pid + d1 pid) ps.
Proof.
  apply map_eq; intros pid. rewrite !lookup_withStockDelta.
  destruct (ps !! pid) as [p|]; simpl; [|done].
  unfold Product.set_stock; simpl. do 2 f_equal. lia.
Qed.

Lemma withStockDelta_nonneg delta ps :
  (∀ pid, 0 ≤ delta pid) → stockNonNegative ps →
  stockNonNegative (withStockDelta delta ps).
Proof.
  intros Hd Hps pid p. rewrite lookup_withStockDelta.
  destruct (ps !! pid) as [p0|] eqn:Hp; simpl; [|done].
  intros [= <-]. simpl. specialize (Hps _ _ Hp). specialize (Hd pid).
  simpl in Hps. lia.
Qed.

Lemma totalStock_insert ps pid p p' :
  ps !! pid = Some p →
  totalStock (<[pid := p']> ps)
  = totalStock ps + (Product.stock p' - Product.stock p).
Proof.
  intros Hp. unfold totalStock.
  rewrite (map_fold_delete_L _ _ pid p ps); [|intros; lia|done].
  rewrite (map_fold_delete_L _ _ pid p' (<[pid := p']> ps));
    [|intros; lia|by rewrite lookup_insert_eq].
  rewrite delete_insert_eq. lia.
Qed.

Lemma restorable_insert items ps pid p p' :
  ps !! pid = Some p → restorable items (<[pid := p']> ps) = restorable items ps.
Proof.
  intros Hp. induction items as [|item rest IH]; simpl; [done|].
  rewrite IH. f_equal.
  destruct (decide (OrderItem.product item = pid)) as [->|Hne].
  - rewrite lookup_insert_eq, Hp. by rewrite !bool_decide_eq_true_2.
  - by rewrite lookup_insert_ne.
Qed.

(** The units in stock after every stored product received [k] times the
    quantity recorded for it. *)
Lemma totalStock_restored k items ps :
  totalStock (withStockDelta (λ pid, k * recorded pid items) ps)
  = totalStock ps + k * restorable items ps.
Proof.
  revert ps. induction items as [|item rest IH]; intros ps; simpl.
  { rewrite (withStockDelta_ext _ (λ _, 0)) by (intros; lia).
    rewrite withStockDelta_zero. lia. }
  destruct (ps !! OrderItem.product item) as [p|] eqn:Hp.
  - rewrite bool_decide_eq_true_2 by done.
    rewrite <- (withStockDelta_ext
      (λ x, (if bool_decide (x = OrderItem.product item)
             then k * OrderItem.quantity item else 0) + k * recorded x rest)).
    2:{ intros pid. repeat case_bool_decide; simplify_eq; lia. }
    rewrite <- (withStockDelta_insert _ ps _ p) by done.
    rewrite IH, (totalStock_insert _ _ p) by done.
    rewrite (restorable_insert _ _ _ p) by done. simpl. lia.
  - rewrite bool_decide_eq_false_2 by (by intros [??]).
    rewrite <- IH. f_equal. apply withStockDelta_ext_stored.
    intros pid [x Hx]. rewrite bool_decide_eq_false_2 by congruence. lia.
Qed.

Lemma restorable_pos items ps item :
  Forall (λ i, 1 ≤ OrderItem.quantity i) items →
  item ∈ items → is_Some (ps !! OrderItem.product item) →
  0 < restorable items ps.
Proof.
  intros Hq Hin Hs.
  assert (∀ l, Forall (λ i, 1 ≤ OrderItem.quantity i) l → 0 ≤ restorable l ps)
    as Hnonneg.
  { induction 1; simpl; [done|]. case_bool_decide; lia. }
  induction Hq as [|i rest Hi Hrest IH]; [by apply elem_of_nil in Hin|].
  simpl. apply elem_of_cons in Hin as [<-|Hin].
  - rewrite bool_decide_eq_true_2 by done. specialize (Hnonneg _ Hrest). lia.
  - specialize (IH Hin). case_bool_decide; lia.
Qed.

Lemma set_status_same order s :
  Order.status order = s → Order.set_status s order = order.
Proof. intros <-. by destruct order. Qed.

(** Cancelling a cancelled order [n] times. *)
Lemma cancelTimes_cancelled db user id order n :
  valid db → orders db !! id = Some order →
  Order.status order = "Cancelled"%string → ownerOrAdmin order user →
  cancelTimes n db user id
  = mkDb (withStockDelta
            (λ pid, Z.of_nat n * recorded pid (Order.orderItems order))
            (products db))
         (carts db) (orders db).
Proof.
  intros [Hstock Hqty] Horder Hstatus Hauth.
  pose proof (Hqty _ _ Horder) as Hitems. simpl in Hitems.
  induction n as [|n IH].
  { simpl. rewrite withStockDelta_zero. by destruct db. }
  unfold cancelTimes in *. rewrite Nat.iter_succ, IH.
  erewrite cancelOrder_succeeds; [| |exact Horder|exact Hauth|].
  - simpl. rewrite (set_status_same _ _ Hstatus), insert_id by done.
    rewrite withStockDelta_compose. f_equal.
    apply withStockDelta_ext; intros pid. lia.
  - split; [|done]. simpl. apply withStockDelta_nonneg; [|done].
    intros pid. pose proof (recorded_nonneg pid _ Hitems). lia.
  - unfold shippedOrDelivered. rewrite Hstatus. by intros [|].
Qed.

Lemma stock_never_negative_witness :
  stockNonNegative (products (run Scenario.shop Scenario.day)).
Proof.
  intros pid p.
  apply (stock_never_negative Scenario.shop Scenario.day).
  by_evaluation.
Defined.

(** A shipped order and a requester who neither owns it nor is an admin:
    the call fails with status 401, not with the error of the status
    check. *)
Lemma cancelOrder_shipped_by_stranger :
  Order.status <$> orders Scenario.shipped !! 100%N = Some "Shipped"%string
  ∧ ∃ err,
      (OrderController.cancelOrder Scenario.shipped Scenario.bob 100).2
      = Next err
      ∧ ¬ InvalidTransition err ∧ errorMiddleware err = 401.
Proof.
  split; [by vm_compute|].
  exists (ErrorHandler "Not authorized to cancel this order" 401).
  split; [by vm_compute|]. split; [|done].
  unfold InvalidTransition. discriminate.
Qed.

(** C3 (amended). On an order whose status is Shipped or Delivered,
    [cancelOrder] always fails and leaves the database, hence every stock,
    unchanged; the failure is InvalidTransition when the requester is the
    owner or an admin and Forbidden otherwise. On an order in any other
    status, [cancelOrder] by the owner or an admin succeeds, stores the
    order with status Cancelled, and adds to the stock of every stored
    product the quantities the order's items record for it, for every
    item. *)
Theorem cancelOrder_spec db user id order :
  valid db → orders db !! id = Some order →
  (shippedOrDelivered order →
     ∃ err, OrderController.cancelOrder db user id = (db, Next err)
       ∧ (ownerOrAdmin order user → InvalidTransition err)
       ∧ (¬ ownerOrAdmin order user → Forbidden err))
  ∧ (¬ shippedOrDelivered order → ownerOrAdmin order user →
     ∃ db' order',
       OrderController.cancelOrder db user id
       = (db', Json 200 "Order cancelled successfully" order')
       ∧ Order.status order' = "Cancelled"%string
       ∧ Order.orderItems order' = Order.orderItems order
       ∧ orders db' = <[id := order']> (orders db)
       ∧ ∀ pid,
           products db' !! pid
           = (λ p, Product.set_stock
                     (Product.stock p + recorded pid (Order.orderItems order))
                     p) <$> products db !! pid).
Proof.
  intros Hvalid Horder. split.
  - intros Hstatus. eexists. split; [by apply cancelOrder_shipped|].
    split.
    + intros Hauth%notOwnerNorAdmin_false. by rewrite Hauth.
    + intros Hauth%notOwnerNorAdmin_true. rewrite Hauth.
      exists "Not authorized to cancel this order"%string. by left.
  - intros Hstatus Hauth. eexists _, _.
    split; [by apply cancelOrder_succeeds|]. simpl.
    do 3 (split; [done|]). intros pid. apply lookup_withStockDelta.
Qed.

Lemma cancelOrder_spec_witness :
  (∃ err,
     OrderController.cancelOrder Scenario.shipped Scenario.alice 100
     = (Scenario.shipped, Next err)
     ∧ (ownerOrAdmin (Order.set_status "Shipped" Scenario.shirtOrder)
          Scenario.alice → InvalidTransition err)
     ∧ (¬ ownerOrAdmin (Order.set_status "Shipped" Scenario.shirtOrder)
            Scenario.alice → Forbidden err))
  ∧ (∃ db' order',
       OrderController.cancelOrder Scenario.placed Scenario.alice 100
       = (db', Json 200 "Order cancelled successfully" order')
       ∧ Order.status order' = "Cancelled"%string
       ∧ Order.orderItems order' = Order.orderItems Scenario.shirtOrder
       ∧ orders db' = <[100%N := order']> (orders Scenario.placed)
       ∧ ∀ pid,
           products db' !! pid
           = (λ p, Product.set_stock
                     (Product.stock p
                      + recorded pid (Order.orderItems Scenario.shirtOrder))
                     p) <$> products Scenario.placed !! pid).
Proof.
  split.
  - apply (cancelOrder_spec Scenario.shipped Scenario.alice 100
             (Order.set_status "Shipped" Scenario.shirtOrder)).
    + by_evaluation.
    + by vm_compute.
    + by left.
  - apply (cancelOrder_spec Scenario.placed Scenario.alice 100
             Scenario.shirtOrder).
    + by_evaluation.
    + by vm_compute.
    + unfold shippedOrDelivered. simpl. intros [H|H]; discriminate H.
    + by left.
Defined.

(** C10. A further [cancelOrder] by the owner or an admin on an order that
    is already Cancelled succeeds, leaves the order Cancelled, and adds the
    recorded quantities to the stock once more; [n] calls add them [n]
    times, so the units in stock grow beyond every bound as soon as one
    listed product is still stored. *)
Theorem cancelOrder_again db user id order :
  valid db → orders db !! id = Some order →
  Order.status order = "Cancelled"%string → ownerOrAdmin order user →
  (∃ db',
     OrderController.cancelOrder db user id
     = (db', Json 200 "Order cancelled successfully" order)
     ∧ orders db' = orders db
     ∧ ∀ pid,
         products db' !! pid
         = (λ p, Product.set_stock
                   (Product.stock p + recorded pid (Order.orderItems order))
                   p) <$> products db !! pid)
  ∧ (∀ n : nat,
       orders (cancelTimes n db user id) = orders db
       ∧ (∀ pid,
            products (cancelTimes n db user id) !! pid
            = (λ p, Product.set_stock
                      (Product.stock p
                       + Z.of_nat n * recorded pid (Order.orderItems order))
                      p) <$> products db !! pid)
       ∧ totalStock (products (cancelTimes n db user id))
         = totalStock (products db)
           + Z.of_nat n * restorable (Order.orderItems order) (products db))
  ∧ ((∃ item, item ∈ Order.orderItems order
              ∧ is_Some (products db !! OrderItem.product item)) →
     ∀ bound : Z, ∃ n : nat,
       bound < totalStock (products (cancelTimes n db user id))).
Proof.
  intros Hvalid Horder Hstatus Hauth.
  assert (∀ n, orders (cancelTimes n db user id) = orders db
     ∧ (∀ pid,
          products (cancelTimes n db user id) !! pid
          = (λ p, Product.set_stock
                    (Product.stock p
                     + Z.of_nat n * recorded pid (Order.orderItems order))
                    p) <$> products db !! pid)
     ∧ totalStock (products (cancelTimes n db user id))
       = totalStock (products db)
         + Z.of_nat n * restorable (Order.orderItems order) (products db))
    as Htimes.
  { intros n. rewrite (cancelTimes_cancelled db user id order n) by done.
    simpl. split; [done|]. split.
    - intros pid. apply lookup_withStockDelta.
    - apply totalStock_restored. }
  split; [|split; [done|]].
  - eexists. split.
    + rewrite (cancelOrder_succeeds db user id order); try done.
      * by rewrite (set_status_same _ _ Hstatus).
      * unfold shippedOrDelivered. rewrite Hstatus. by intros [|].
    + simpl. split; [by apply insert_id|].
      intros pid. apply lookup_withStockDelta.
  - intros (item & Hin & Hstored) bound.
    assert (0 < restorable (Order.orderItems order) (products db)) as Hpos.
    { apply (restorable_pos _ _ item); [|done|done].
      destruct Hvalid as [_ Hqty]. exact (Hqty _ _ Horder). }
    exists (Z.to_nat (Z.max 0 (bound - totalStock (products db)) + 1)).
    destruct (Htimes (Z.to_nat (Z.max 0 (bound - totalStock (products db)) + 1)))
      as (_ & _ & ->).
    rewrite Z2Nat.id by lia. nia.
Qed.

Lemma cancelOrder_again_witness :
  ∃ n : nat,
    1000 < totalStock (products (cancelTimes n Scenario.cancelled
                                   Scenario.alice 100)).
Proof.
  apply (proj2 (proj2 (cancelOrder_again Scenario.cancelled Scenario.alice 100
                  (Order.set_status "Cancelled" Scenario.shirtOrder)
                  ltac:(by_evaluation) ltac:(by vm_compute)
                  eq_refl ltac:(by left)))).
  exists (OrderItem.mk Scenario.shirt "Item" 2 "M" 499 None).
  split; [apply list_elem_of_here|].
  exists (Product.mk 5 499). by vm_compute.
Defined.

(** ** addToCart *)

Lemma Cart_save_inl owner cart db db' :
  Cart_save owner cart db = inl db' →
  db' = set_carts (<[owner := cart]> (carts db)) db
  ∧ Forall (λ i, 1 ≤ CartItem.quantity i) (Cart.items cart).
Proof.
  unfold Cart_save. destruct (forallb _ _) eqn:Hv; [|done].
  intros [= <-]. split; [done|].
  apply Forall_forall. intros i Hi.
  rewrite forallb_forall in Hv. apply list_elem_of_In, Hv in Hi.
  unfold cartItemValid in Hi. lia.
Qed.

(** What a successful [addToCart] did. *)
Lemma addToCart_success db user body newId db' message cart' :
  CartController.addToCart db user body newId = (db', Json 200 message cart') →
  ∃ product,
    products db !! CartController.productId body = Some product
    ∧ db' = set_carts (<[User.id user := cart']> (carts db)) db
    ∧ match list_find (CartController.sameSelection body) (cartItems db user) with
      | Some (i, existing) =>
          Cart.items cart'
          = <[i := CartItem.set_quantity
                     (CartItem.quantity existing
                      + default 1 (CartController.quantity body)) existing]>
              (cartItems db user)
          ∧ CartItem.quantity existing
            + default 1 (CartController.quantity body) ≤ Product.stock product
      | None =>
          Cart.items cart'
          = cartItems db user
            ++ [CartItem.mk newId (CartController.productId body)
                  (default 1 (CartController.quantity body))
                  (CartController.size body) (CartController.color body)
                  (Product.price product)]
      end.
Proof.
  unfold catchAsyncErrors, CartController.addToCart, cartItems.
  destruct (products db !! CartController.productId body) as [product|];
    [|done].
  destruct (Product.stock product <? _) eqn:Hstock; [done|].
  replace (Cart.items (default (Cart.mk (User.id user) [])
                         (carts db !! User.id user)))
    with (default [] (Cart.items <$> carts db !! User.id user))
    by (by destruct (carts db !! User.id user)).
  destruct (list_find _ _) as [[i existing]|].
  - destruct (Product.stock product <? CartItem.quantity existing + _)
      eqn:Hsum; [done|].
    destruct (Cart_save _ _ _) as [db1|err] eqn:Hsave; [|done].
    intros [= <- <- <-]. apply Cart_save_inl in Hsave as [-> _].
    exists product. do 2 (split; [done|]). split; [done|]. lia.
  - destruct (Cart_save _ _ _) as [db1|err] eqn:Hsave; [|done].
    intros [= <- <- <-]. apply Cart_save_inl in Hsave as [-> _].
    by exists product.
Qed.

Lemma key_set_quantity q item :
  CartItem.key (CartItem.set_quantity q item) = CartItem.key item.
Proof. done. Qed.

Lemma sameSelection_key body item :
  CartController.sameSelection body item ↔ CartItem.key item = selection body.
Proof.
  unfold CartController.sameSelection, CartItem.key, selection.
  split; [intros (-> & -> & ->); done|intros [= -> -> ->]; done].
Qed.

(** The cart after a successful [addToCart], from the cart before. *)
Lemma addToCart_effect db user body newId db' message cart' :
  CartController.addToCart db user body newId = (db', Json 200 message cart') →
  carts db' !! User.id user = Some cart'
  ∧ (merged (cartItems db user) → merged (Cart.items cart'))
  ∧ ∃ product,
      products db !! CartController.productId body = Some product
      ∧ ((∃ i existing,
            cartItems db user !! i = Some existing
            ∧ CartItem.key existing = selection body
            ∧ Cart.items cart'
              = <[i := CartItem.set_quantity
                         (CartItem.quantity existing
                          + default 1 (CartController.quantity body))
                         existing]> (cartItems db user)
            ∧ length (Cart.items cart') = length (cartItems db user)
            ∧ CartItem.quantity existing
              + default 1 (CartController.quantity body)
              ≤ Product.stock product)
         ∨ ((∀ item, item ∈ cartItems db user →
                     CartItem.key item ≠ selection body)
            ∧ Cart.items cart'
              = cartItems db user
                ++ [CartItem.mk newId (CartController.productId body)
                      (default 1 (CartController.quantity body))
                      (CartController.size body) (CartController.color body)
                      (Product.price product)])).
Proof.
  intros (product & Hproduct & -> & Hitems)%addToCart_success.
  split; [by simpl; rewrite lookup_insert_eq|].
  destruct (list_find _ _) as [[i existing]|] eqn:Hfind.
  - destruct Hitems as [Hitems Hstock].
    apply list_find_Some in Hfind as (Hi & Hsel%sameSelection_key & _).
    split.
    + unfold merged. rewrite Hitems, list_fmap_insert, key_set_quantity.
      rewrite list_insert_id; [done|]. by rewrite list_lookup_fmap, Hi.
    + exists product. split; [done|]. left. exists i, existing.
      do 3 (split; [done|]). split; [|done].
      by rewrite Hitems, length_insert.
  - apply list_find_None in Hfind. rewrite Forall_forall in Hfind.
    assert (∀ item, item ∈ cartItems db user →
                    CartItem.key item ≠ selection body) as Hnew.
    { intros item Hin Hkey. by apply (Hfind item Hin), sameSelection_key. }
    split.
    + unfold merged. rewrite Hitems, fmap_app. intros Hnodup.
      apply NoDup_app. split; [done|]. split; [|apply NoDup_singleton].
      intros key (item & -> & Hin)%list_elem_of_fmap Hk.
      apply list_elem_of_singleton in Hk. by apply (Hnew item).
    + exists product. split; [done|]. by right.
Qed.

(** *** Carts stay merged *)

Lemma merged_set_quantity items i item q :
  items !! i = Some item → merged items →
  merged (<[i := CartItem.set_quantity q item]> items).
Proof.
  intros Hi. unfold merged. rewrite list_fmap_insert, key_set_quantity.
  rewrite list_insert_id; [done|]. by rewrite list_lookup_fmap, Hi.
Qed.

Lemma merged_filter (P : CartItem.t → Prop) `{!∀ x, Decision (P x)} items :
  merged items → merged (filter P items).
Proof.
  unfold merged. intros Hnodup. apply (sublist_NoDup _ _ Hnodup).
  apply fmap_sublist, sublist_filter.
Qed.

Lemma cartsMerged_save owner cart db db' :
  cartsMerged db → merged (Cart.items cart) →
  Cart_save owner cart db = inl db' → cartsMerged db'.
Proof.
  intros Hdb Hcart [-> _]%Cart_save_inl. by apply map_Forall_insert_2.
Qed.

Lemma cartItems_merged db user : cartsMerged db → merged (cartItems db user).
Proof.
  intros Hdb. unfold cartItems.
  destruct (carts db !! User.id user) as [cart|] eqn:Hcart; simpl.
  - exact (Hdb _ _ Hcart).
  - apply NoDup_nil_2.
Qed.

Lemma step_keeps_merged db op : cartsMerged db → cartsMerged (step db op).
Proof.
  intros Hdb. destruct op; simpl.
  - unfold catchAsyncErrors, CartController.getCart.
    destruct (carts db !! User.id user) eqn:Hcart; [done|]. simpl.
    apply map_Forall_insert_2; [apply NoDup_nil_2|done].
  - destruct (CartController.addToCart db user body newId)
      as [db' [status message cart'|err]] eqn:Hadd; simpl.
    + assert (status = 200) as ->.
      { revert Hadd. unfold catchAsyncErrors, CartController.addToCart.
        repeat case_match; by intros [= <- <- <- <-]. }
      pose proof (addToCart_effect _ _ _ _ _ _ _ Hadd) as (_ & Hm & _).
      apply addToCart_success in Hadd as (_ & _ & -> & _).
      apply map_Forall_insert_2; [|done].
      by apply Hm, cartItems_merged.
    + revert Hadd. unfold catchAsyncErrors, CartController.addToCart.
      repeat case_match; by intros [= <- <-].
  - unfold catchAsyncErrors, CartController.updateCartItem.
    destruct (quantity <? 1); [done|].
    destruct (carts db !! User.id user) as [cart|] eqn:Hcart; [|done].
    destruct (list_find _ _) as [[index item]|] eqn:Hfind; [|done].
    destruct (products db !! CartItem.product item) as [product|]; [|done].
    destruct (Product.stock product <? quantity); [done|].
    destruct (Cart_save _ _ _) as [db'|err] eqn:Hsave; [|done]. simpl.
    apply (cartsMerged_save _ _ _ _ Hdb) in Hsave; [done|]. simpl.
    apply list_find_Some in Hfind as (Hi & _).
    apply merged_set_quantity; [done|]. exact (Hdb _ _ Hcart).
  - unfold catchAsyncErrors, CartController.removeFromCart.
    destruct (carts db !! User.id user) as [cart|] eqn:Hcart; [|done].
    simpl. case_bool_decide; [done|].
    destruct (Cart_save _ _ _) as [db'|err] eqn:Hsave; [|done]. simpl.
    apply (cartsMerged_save _ _ _ _ Hdb) in Hsave; [done|]. simpl.
    apply merged_filter. exact (Hdb _ _ Hcart).
  - unfold catchAsyncErrors, CartController.clearCart.
    destruct (carts db !! User.id user) as [cart|] eqn:Hcart; [|done].
    destruct (Cart_save _ _ _) as [db'|err] eqn:Hsave; [|done]. simpl.
    apply (cartsMerged_save _ _ _ _ Hdb) in Hsave; [done|]. apply NoDup_nil_2.
  - unfold catchAsyncErrors, OrderController.createOrder. repeat case_match; simpl; done.
  - unfold catchAsyncErrors, OrderController.updateOrderToPaid.
    repeat case_match; simpl; try done.
    match goal with H : Order_save _ _ _ = inl _ |- _ =>
      apply Order_save_products in H as (_ & Hc & _) end.
    unfold cartsMerged. by rewrite Hc.
  - unfold catchAsyncErrors, OrderController.updateOrderStatus.
    repeat case_match; simpl; try done;
    match goal with H : Order_save _ _ _ = inl _ |- _ =>
      apply Order_save_products in H as (_ & Hc & _) end;
    unfold cartsMerged; by rewrite Hc.
  - unfold catchAsyncErrors, OrderController.cancelOrder.
    repeat case_match; simpl; try done;
    match goal with H : Order_save _ _ _ = inl _ |- _ =>
      apply Order_save_products in H as (_ & Hc & _) end;
    unfold cartsMerged; simpl; by rewrite Hc.
Qed.

Lemma run_keeps_merged db ops : cartsMerged db → cartsMerged (run db ops).
Proof.
  revert db. induction ops as [|op ops IH]; intros db Hdb; [done|].
  simpl. by apply IH, step_keeps_merged.
Qed.

(** Requests that spell the product id as [toString()] does. Take any
    database whose carts have at most one item per
    (product, size, color), for instance one without carts, and any
    sequence of cart and order operations on it. After a successful
    [addToCart] in the database reached, the cart of the user is the
    returned one and has at most one item per key. When the selected key
    was in the cart, the quantity of that one item grew by the added
    quantity, within the product's stock, and no item was appended; when
    it was not, one item with the product's current price was appended. *)
Theorem addToCart_one_item_per_key
    db0 ops user body newId db' message cart' :
  cartsMerged db0 →
  CartController.addToCart (run db0 ops) user body newId
  = (db', Json 200 message cart') →
  carts db' !! User.id user = Some cart'
  ∧ merged (Cart.items cart')
  ∧ ∃ product,
      products (run db0 ops) !! CartController.productId body = Some product
      ∧ ((∃ i existing,
            cartItems (run db0 ops) user !! i = Some existing
            ∧ CartItem.key existing = selection body
            ∧ (∀ j other, cartItems (run db0 ops) user !! j = Some other →
                          CartItem.key other = selection body → j = i)
            ∧ Cart.items cart'
              = <[i := CartItem.set_quantity
                         (CartItem.quantity existing
                          + default 1 (CartController.quantity body))
                         existing]> (cartItems (run db0 ops) user)
            ∧ length (Cart.items cart') = length (cartItems (run db0 ops) user)
            ∧ CartItem.quantity existing
              + default 1 (CartController.quantity body)
              ≤ Product.stock product)
         ∨ ((∀ item, item ∈ cartItems (run db0 ops) user →
                     CartItem.key item ≠ selection body)
            ∧ Cart.items cart'
              = cartItems (run db0 ops) user
                ++ [CartItem.mk newId (CartController.productId body)
                      (default 1 (CartController.quantity body))
                      (CartController.size body) (CartController.color body)
                      (Product.price product)])).
Proof.
  intros Hdb0 Hadd.
  pose proof (cartItems_merged _ user (run_keeps_merged _ ops Hdb0)) as Hm.
  apply addToCart_effect in Hadd as (Hcart & Hkeep & product & Hp & Hcases).
  split; [done|]. split; [by apply Hkeep|].
  exists product. split; [done|].
  destruct Hcases as [(i & existing & Hi & Hkey & Hrest)|Hnew]; [|by right].
  left. exists i, existing. do 2 (split; [done|]). split; [|done].
  intros j other Hj Hother.
  apply (NoDup_lookup _ j i (selection body) Hm);
    rewrite list_lookup_fmap; [by rewrite Hj; simpl; rewrite Hother
                              |by rewrite Hi; simpl; rewrite Hkey].
Qed.

Lemma addToCart_one_item_per_key_witness :
  carts (step Scenario.withCart
           (AddToCart Scenario.alice (Scenario.redShirt 1) 51)) !! 1%N
  = Some (Cart.mk 1 [CartItem.mk 50 Scenario.shirt 4 (Some "M"%string)
                       (Some "red"%string) 499]).
Proof.
  refine (proj1 (addToCart_one_item_per_key Scenario.shop
            [AddToCart Scenario.alice (Scenario.redShirt 3) 50]
            Scenario.alice (Scenario.redShirt 1) 51 _ "Item added to cart" _
            _ _)).
  - intros user cart Hcart. by vm_compute in Hcart.
  - by vm_compute.
Defined.

(** The selections [addToCart] turns down before it looks at the cart. *)
Lemma addToCart_not_found db user body newId :
  products db !! CartController.productId body = None →
  CartController.addToCart db user body newId
  = (db, Next (ErrorHandler "Product not found" 404)).
Proof. intros H. unfold catchAsyncErrors, CartController.addToCart. by rewrite H. Qed.

Lemma addToCart_insufficient_stock db user body newId product :
  products db !! CartController.productId body = Some product →
  Product.stock product < default 1 (CartController.quantity body) →
  CartController.addToCart db user body newId
  = (db, Next (ErrorHandler "Insufficient stock" 400)).
Proof.
  intros H Hlt. unfold catchAsyncErrors, CartController.addToCart. rewrite H.
  by rewrite (proj2 (Z.ltb_lt _ _) Hlt).
Qed.

Lemma addToCart_insufficient_stock_merge db user body newId product i existing :
  products db !! CartController.productId body = Some product →
  list_find (CartController.sameSelection body) (cartItems db user)
  = Some (i, existing) →
  Product.stock product
  < CartItem.quantity existing + default 1 (CartController.quantity body) →
  ∃ message,
    CartController.addToCart db user body newId
    = (db, Next (ErrorHandler message 400))
    ∧ InsufficientStock (ErrorHandler message 400).
Proof.
  intros H Hfind Hlt. unfold catchAsyncErrors, CartController.addToCart. rewrite H.
  unfold cartItems in Hfind.
  replace (Cart.items (default (Cart.mk (User.id user) [])
                         (carts db !! User.id user)))
    with (default [] (Cart.items <$> carts db !! User.id user))
    by (by destruct (carts db !! User.id user)).
  rewrite Hfind.
  destruct (Product.stock product <? default 1 _).
  - eexists. split; [done|]. by eexists.
  - rewrite (proj2 (Z.ltb_lt _ _) Hlt). eexists. split; [done|]. by eexists.
Qed.

(** C8. [addToCart] has no check of [quantity >= 1]. Alice has three red
    shirts in her cart and five are in stock: adding the same selection
    with quantity -1 succeeds and leaves two in the cart. *)
Theorem addToCart_negative_quantity :
  CartController.addToCart Scenario.withCart Scenario.alice
    (Scenario.redShirt (-1)) 51
  = (set_carts
       {[ 1%N := Cart.mk 1 [CartItem.mk 50 Scenario.shirt 2 (Some "M"%string)
                              (Some "red"%string) 499] ]}
       Scenario.withCart,
     Json 200 "Item added to cart"
       (Cart.mk 1 [CartItem.mk 50 Scenario.shirt 2 (Some "M"%string)
                     (Some "red"%string) 499]))
  ∧ cartItems Scenario.withCart Scenario.alice
    = [CartItem.mk 50 Scenario.shirt 3 (Some "M"%string)
         (Some "red"%string) 499]
  ∧ CartController.updateCartItem Scenario.withCart Scenario.alice 50 (-1)
    = (Scenario.withCart,
       Next (ErrorHandler "Quantity must be at least 1" 400)).
Proof. by vm_compute. Qed.

(** ** clearCart *)

(** A user who never opened a cart: [clearCart] answers 404. *)
Lemma clearCart_without_cart :
  carts Scenario.shop !! User.id Scenario.alice = None
  ∧ CartController.clearCart Scenario.shop Scenario.alice
    = (Scenario.shop, Next (ErrorHandler "Cart not found" 404))
  ∧ succeeded (CartController.clearCart Scenario.shop Scenario.alice).2 = false.
Proof. by vm_compute. Qed.

(** C7 (amended). For a user who has a cart document, [clearCart] succeeds
    and stores and returns that cart with an empty item list, touching no
    other cart, product or order; for a user without a cart document it
    fails with 404 and changes nothing. In both cases a second call gives
    the same database and the same response as the first. *)
Theorem clearCart_spec db user :
  let '(db', response) := CartController.clearCart db user in
  match carts db !! User.id user with
  | Some cart =>
      ∃ cart',
        response = Json 200 "Cart cleared" cart'
        ∧ Cart.items cart' = [] ∧ Cart.user cart' = Cart.user cart
        ∧ carts db' = <[User.id user := cart']> (carts db)
        ∧ products db' = products db ∧ orders db' = orders db
  | None =>
      response = Next (ErrorHandler "Cart not found" 404) ∧ db' = db
  end
  ∧ CartController.clearCart db' user = (db', response).
Proof.
  unfold catchAsyncErrors, CartController.clearCart, Cart_save. simpl.
  destruct (carts db !! User.id user) as [cart|] eqn:Hcart; simpl.
  - split; [by eexists|].
    rewrite lookup_insert_eq. simpl. unfold set_carts. simpl.
    by rewrite insert_insert_eq.
  - split; [done|]. by rewrite Hcart.
Qed.

(** ** addToCart, then removeFromCart *)

(** Alice has three red shirts in her cart. One more of the same selection
    is merged into that item, and removing the shirt then empties the cart:
    both calls succeed, one item was there before and none is left. *)
Lemma add_then_remove_merged :
  ∃ db1 cart1 db2 cart2,
    CartController.addToCart Scenario.withCart Scenario.alice
      (Scenario.redShirt 1) 51
    = (db1, Json 200 "Item added to cart" cart1)
    ∧ CartController.removeFromCart db1 Scenario.alice Scenario.shirt
      = (db2, Json 200 "Item removed from cart" cart2)
    ∧ length (cartItems Scenario.withCart Scenario.alice) = 1%nat
    ∧ length (cartItems db2 Scenario.alice) = 0%nat.
Proof. do 4 eexists. by vm_compute. Qed.

Lemma filter_keeps_all {A} (P : A → Prop) `{!∀ x, Decision (P x)} (l : list A) :
  Forall P l → filter P l = l.
Proof.
  induction 1 as [|x l Hx _ IH]; [done|].
  by rewrite filter_cons, decide_True, IH.
Qed.

(** What a successful [removeFromCart] did. *)
Lemma removeFromCart_success db user itemId db' message cart' :
  CartController.removeFromCart db user itemId
  = (db', Json 200 message cart') →
  Cart.items cart'
  = filter (λ item, CartItem._id item ≠ itemId
                    ∧ CartItem.product item ≠ itemId) (cartItems db user)
  ∧ length (Cart.items cart') ≠ length (cartItems db user)
  ∧ db' = set_carts (<[User.id user := cart']> (carts db)) db.
Proof.
  unfold catchAsyncErrors, CartController.removeFromCart, cartItems.
  destruct (carts db !! User.id user) as [cart|]; [|done]. simpl.
  case_bool_decide as Hlen; [done|].
  destruct (Cart_save _ _ _) as [db1|err] eqn:Hsave; [|done].
  intros [= <- <- <-]. by apply Cart_save_inl in Hsave as [-> _].
Qed.

(** C9 (amended). When no item of the cart matched the id to be removed
    before the addition, neither by its own id nor by its product's id, a
    successful [addToCart] followed by a successful [removeFromCart] with
    that id returns the cart to the items it had, and so to its item
    count. *)
Theorem add_then_remove_roundtrip
    db user body newId itemId db1 m1 cart1 db2 m2 cart2 :
  (∀ item, item ∈ cartItems db user →
           CartItem._id item ≠ itemId ∧ CartItem.product item ≠ itemId) →
  CartController.addToCart db user body newId = (db1, Json 200 m1 cart1) →
  CartController.removeFromCart db1 user itemId = (db2, Json 200 m2 cart2) →
  cartItems db2 user = cartItems db user
  ∧ Cart.items cart2 = cartItems db user
  ∧ length (cartItems db2 user) = length (cartItems db user).
Proof.
  intros Hfresh Hadd Hremove.
  apply addToCart_success in Hadd as (product & _ & -> & Hadd).
  apply removeFromCart_success in Hremove as (Hitems & Hlen & ->).
  assert (cartItems (set_carts (<[User.id user:=cart1]> (carts db)) db) user
          = Cart.items cart1) as Hmid.
  { unfold cartItems. simpl. by rewrite lookup_insert_eq. }
  rewrite Hmid in Hitems, Hlen.
  assert (Cart.items cart2 = cartItems db user) as Hback.
  { apply Forall_forall in Hfresh.
    destruct (list_find _ _) as [[i existing]|] eqn:Hfind.
    - destruct Hadd as [Hadd _]. exfalso. apply Hlen.
      rewrite Hitems. f_equal. apply filter_keeps_all.
      rewrite Hadd. apply Forall_insert; [done|].
      apply list_find_Some in Hfind as (Hi & _ & _).
      apply (Forall_lookup_1 _ _ _ _ Hfresh Hi).
    - rewrite Hitems, Hadd, filter_app, filter_keeps_all by done.
      rewrite filter_cons, filter_nil. case_decide as Hnew; [|by rewrite app_nil_r].
      exfalso. apply Hlen. rewrite Hitems, Hadd, filter_app.
      rewrite filter_keeps_all by done.
      by rewrite filter_cons, filter_nil, decide_True. }
  assert (cartItems (set_carts
            (<[User.id user:=cart2]>
               (carts (set_carts (<[User.id user:=cart1]> (carts db)) db)))
            (set_carts (<[User.id user:=cart1]> (carts db)) db)) user
          = Cart.items cart2) as Hend.
  { unfold cartItems. simpl. by rewrite lookup_insert_eq. }
  rewrite Hend, Hback. done.
Qed.

Lemma add_then_remove_roundtrip_witness :
  cartItems
    (run Scenario.withCart
       [AddToCart Scenario.alice
          (CartController.mkAddToCartBody Scenario.shirt (Some 1) None None) 51;
        RemoveFromCart Scenario.alice 51]) Scenario.alice
  = cartItems Scenario.withCart Scenario.alice.
Proof.
  refine (proj1 (add_then_remove_roundtrip Scenario.withCart Scenario.alice
           (CartController.mkAddToCartBody Scenario.shirt (Some 1) None None)
           51 51 _ "Item added to cart" _ _ "Item removed from cart" _
           _ _ _)).
  - intros item Hin. apply list_elem_of_singleton in Hin as ->. by vm_compute.
  - by vm_compute.
  - by vm_compute.
Defined.

(** ** createOrder on a product that is out of stock *)

(** The first item asks for more than is stored: the order is in the
    database when the product's save is rejected, and the error is the
    validation error of the schema. *)
Lemma createOrder_first_item_short
    db user body newId item rest order pid p q :
  OrderController.orderItems body = Some (item :: rest) →
  OrderController.Order_create newId user body = Some order →
  OrderController.product item = Some pid →
  products db !! pid = Some p →
  OrderController.quantity item = Some q →
  Product.stock p < q →
  OrderController.createOrder db user body newId
  = (set_orders (<[newId := order]> (orders db)) db,
     Next (ValidationError "stock")).
Proof.
  intros Hitems Hcreate Hpid Hp Hq Hlt.
  unfold catchAsyncErrors, OrderController.createOrder. rewrite Hitems, Hcreate. simpl.
  rewrite Hpid, Hp, Hq. unfold Product_save. simpl.
  rewrite bool_decide_eq_false_2 by lia. by destruct db.
Qed.

(** Five shirts are in stock and an order for five takes them all. The
    next order for one shirt fails, but not with InsufficientStock: the
    save of the product is rejected by the schema, the error middleware
    answers 500, and the order document of the failed call is in the
    database. *)
Lemma createOrder_out_of_stock :
  Product.stock <$> products Scenario.soldOut !! Scenario.shirt = Some 0
  ∧ ∃ db' err,
      OrderController.createOrder Scenario.soldOut Scenario.bob
        (Scenario.checkout [Scenario.line Scenario.shirt 1]) 101
      = (db', Next err)
      ∧ ¬ InsufficientStock err
      ∧ errorMiddleware err = 500
      ∧ Order.user <$> orders db' !! 101%N = Some (User.id Scenario.bob)
      ∧ orders Scenario.soldOut !! 101%N = None.
Proof.
  split; [by vm_compute|]. do 2 eexists. split; [by vm_compute|].
  split; [by intros (message & [=] & _)|]. by vm_compute.
Qed.

Lemma decrementStock_app pre rest ps :
  OrderController.decrementStock (pre ++ rest) ps
  = match OrderController.decrementStock pre ps with
    | (ps', None) => OrderController.decrementStock rest ps'
    | failed => failed
    end.
Proof.
  revert ps. induction pre as [|item pre IH]; intros ps; simpl; [done|].
  destruct (OrderController.product item) as [pid|]; [|apply IH].
  destruct (ps !! pid) as [p|]; [|apply IH].
  destruct (OrderController.quantity item) as [q|]; [|done].
  destruct (Product_save pid _ ps) as [ps1|err]; [apply IH|done].
Qed.

(** In general: when the loop of [createOrder] reaches an item whose
    product holds less stock than the item asks for, the call fails: the
    save of the product is rejected by the [min: 0] validator of its
    schema, so the error is a validation error that the error middleware
    answers with status 500, not InsufficientStock. The stock of that
    product is not decremented; the order has been stored before. *)
Theorem createOrder_insufficient_stock
    db user body newId order pre item rest ps pid p q :
  OrderController.orderItems body = Some (pre ++ item :: rest) →
  OrderController.Order_create newId user body = Some order →
  OrderController.decrementStock pre (products db) = (ps, None) →
  OrderController.product item = Some pid →
  ps !! pid = Some p →
  OrderController.quantity item = Some q →
  Product.stock p < q →
  ∃ db' err,
    OrderController.createOrder db user body newId = (db', Next err)
    ∧ err = ValidationError "stock"
    ∧ ¬ InsufficientStock err
    ∧ errorMiddleware err = 500
    ∧ products db' !! pid = Some p
    ∧ orders db' = <[newId := order]> (orders db).
Proof.
  intros Hitems Hcreate Hpre Hpid Hp Hq Hlt.
  exists (mkDb ps (carts db) (<[newId := order]> (orders db))),
    (ValidationError "stock").
  split.
  - unfold catchAsyncErrors, OrderController.createOrder. rewrite Hitems, Hcreate.
    destruct (pre ++ item :: rest) eqn:Hl; [by destruct pre|].
    rewrite <- Hl. simpl products. rewrite decrementStock_app, Hpre. simpl.
    rewrite Hpid, Hp, Hq. unfold Product_save. simpl.
    by rewrite bool_decide_eq_false_2 by lia.
  - split; [done|]. split; [by intros (message & [=] & _)|]. done.
Qed.

Lemma createOrder_insufficient_stock_witness :
  ∃ db' err,
    OrderController.createOrder Scenario.soldOut Scenario.bob
      (Scenario.checkout [Scenario.line Scenario.shirt 1]) 101
    = (db', Next err)
    ∧ err = ValidationError "stock"
    ∧ ¬ InsufficientStock err
    ∧ errorMiddleware err = 500
    ∧ products db' !! Scenario.shirt = Some (Product.mk 0 499)
    ∧ orders db'
      = <[101%N := Order.mk 101 2 [OrderItem.mk Scenario.shirt "Item" 1 "M" 499 None]
                    (ShippingAddress.mk "12 Park Street" "Kolkata"
                       "West Bengal" "700016" "India")
                    "COD" None 0 0 0 0 false None false None "Processing"
                    None]> (orders Scenario.soldOut).
Proof.
  apply (createOrder_insufficient_stock Scenario.soldOut Scenario.bob
           (Scenario.checkout [Scenario.line Scenario.shirt 1]) 101 _
           [] (Scenario.line Scenario.shirt 1) [] (products Scenario.soldOut)
           Scenario.shirt (Product.mk 0 499) 1);
    by vm_compute.
Defined.

(** ** updateOrderToPaid *)

(** The handler never reads [req.user]. *)
Lemma updateOrderToPaid_any_user db user1 user2 id body now :
  OrderController.updateOrderToPaid db user1 id body now
  = OrderController.updateOrderToPaid db user2 id body now.
Proof. done. Qed.

(** C6. Bob, who is neither the owner of Alice's order nor an admin, is
    refused by [GET /:id], by [PUT /:id/cancel] and by [PUT /:id/status],
    but his [PUT /:id/pay] succeeds and marks her order as paid with his
    receipt. *)
Theorem updateOrderToPaid_by_stranger :
  orders Scenario.placed !! 100%N = Some Scenario.shirtOrder
  ∧ OrderController.notOwnerNorAdmin Scenario.shirtOrder Scenario.bob = true
  ∧ OrderRoutes.get_id Scenario.placed (Authenticated Scenario.bob) 100
    = (Scenario.placed,
       Next (ErrorHandler "Not authorized to view this order" 401))
  ∧ OrderRoutes.put_id_cancel Scenario.placed (Authenticated Scenario.bob) 100
    = (Scenario.placed,
       Next (ErrorHandler "Not authorized to cancel this order" 401))
  ∧ OrderRoutes.put_id_status Scenario.placed (Authenticated Scenario.bob) 100
      (OrderController.mkStatusBody (Some "Delivered"%string) None) 1700000000
    = (Scenario.placed, Next (ErrorHandler "Not authorized as admin" 403))
  ∧ ∃ db' order',
      OrderRoutes.put_id_pay Scenario.placed (Authenticated Scenario.bob) 100
        Scenario.receipt 1700000000
      = (db', Json 200 "Order updated to paid" order')
      ∧ orders db' !! 100%N = Some order'
      ∧ Order.isPaid Scenario.shirtOrder = false
      ∧ Order.isPaid order' = true
      ∧ Order.paidAt order' = Some 1700000000
      ∧ Order.paymentResult order'
        = Some (PaymentResult.mk (Some "PAY-1"%string)
                  (Some "COMPLETED"%string) (Some "2024-01-01"%string)
                  (Some "bob@example.com"%string)).
Proof.
  do 5 (split; [by vm_compute|]). do 2 eexists. by vm_compute.
Qed.

(** * Further properties of the controllers *)

(** ** createOrder: when it succeeds *)

Lemma Order_create_items newId user body order :
  OrderController.Order_create newId user body = Some order →
  Forall2 (λ item stored, OrderController.validateOrderItem item = Some stored)
    (default [] (OrderController.orderItems body)) (Order.orderItems order)
  ∧ Order.user order = User.id user
  ∧ Order.status order = "Processing"%string.
Proof.
  unfold OrderController.Order_create. intros H. simplify_option_eq.
  split; [|done].
  match goal with H : mapM _ _ = Some _ |- _ => by apply mapM_Some_1 in H end.
Qed.

Lemma requested_recorded pid items stored :
  Forall2 (λ item s, OrderController.validateOrderItem item = Some s)
    items stored →
  requested pid items = recorded pid stored.
Proof.
  induction 1 as [|item s items stored Hv _ IH]; simpl; [done|].
  apply validateOrderItem_quantity in Hv as (_ & -> & ->). rewrite IH. simpl.
  f_equal. repeat case_bool_decide; simplify_eq; done.
Qed.

Lemma requested_nonneg pid items stored :
  Forall2 (λ item s, OrderController.validateOrderItem item = Some s)
    items stored →
  0 ≤ requested pid items.
Proof.
  intros Hv. rewrite (requested_recorded _ _ _ Hv).
  apply recorded_nonneg.
  eapply Forall2_Forall_r; [exact Hv|]. apply Forall_forall.
  intros s _ item Hs. by apply validateOrderItem_quantity in Hs as [? _].
Qed.

(** With validated items, the loop saves every product exactly when the
    stock of each stored product covers all that is requested of it. *)
Lemma decrementStock_succeeds_iff items stored ps :
  Forall2 (λ item s, OrderController.validateOrderItem item = Some s)
    items stored →
  stockNonNegative ps →
  (OrderController.decrementStock items ps).2 = None
  ↔ ∀ pid p, ps !! pid = Some p → requested pid items ≤ Product.stock p.
Proof.
  intros Hv. revert ps.
  induction Hv as [|item s items stored Hv Hrest IH]; intros ps Hps; simpl.
  { split; [|done]. intros _ pid p Hp. exact (Hps _ _ Hp). }
  pose proof (requested_nonneg) as Hnn.
  pose proof (validateOrderItem_quantity _ _ Hv) as (Hq & Hprod & Hqty).
  rewrite Hprod, Hqty. simpl.
  destruct (ps !! OrderItem.product s) as [p|] eqn:Hp.
  - unfold Product_save. simpl. case_bool_decide as Hge; simpl.
    + rewrite IH by (apply map_Forall_insert_2; [done|done]).
      split.
      * intros H pid p' Hp'. destruct (decide (OrderItem.product s = pid)) as [<-|Hne].
        -- rewrite bool_decide_eq_true_2 by done. simplify_eq.
           specialize (H (OrderItem.product s) _ (lookup_insert_eq _ _ _)).
           simpl in H. lia.
        -- rewrite bool_decide_eq_false_2 by congruence.
           specialize (H pid p'). rewrite lookup_insert_ne in H by done.
           specialize (H Hp'). lia.
      * intros H pid p'. destruct (decide (OrderItem.product s = pid)) as [<-|Hne].
        -- rewrite lookup_insert_eq. intros [= <-]. simpl.
           specialize (H _ _ Hp). rewrite bool_decide_eq_true_2 in H by done. lia.
        -- rewrite lookup_insert_ne by done. intros Hp'.
           specialize (H _ _ Hp'). rewrite bool_decide_eq_false_2 in H by congruence.
           lia.
    + split; [done|]. intros H. exfalso.
      specialize (H _ _ Hp). rewrite bool_decide_eq_true_2 in H by done.
      specialize (Hnn (OrderItem.product s) _ _ Hrest). lia.
  - rewrite IH by done. split.
    + intros H pid p' Hp'. rewrite bool_decide_eq_false_2 by congruence.
      specialize (H _ _ Hp'). lia.
    + intros H pid p' Hp'. specialize (H _ _ Hp').
      rewrite bool_decide_eq_false_2 in H by congruence. lia.
Qed.

(** X1. On a database without negative stock, [createOrder] answers 201
    exactly when the request carries a non-empty item list, the order
    passes the schema, and the stock of every stored product covers the
    total quantity the items request of it. *)
Theorem createOrder_succeeds_iff db user body newId :
  stockNonNegative (products db) →
  succeeded (OrderController.createOrder db user body newId).2 = true
  ↔ ∃ items,
      OrderController.orderItems body = Some items
      ∧ items ≠ []
      ∧ is_Some (OrderController.Order_create newId user body)
      ∧ ∀ pid p, products db !! pid = Some p →
                 requested pid items ≤ Product.stock p.
Proof.
  intros Hdb. unfold OrderController.createOrder, catchAsyncErrors.
  destruct (OrderController.orderItems body) as [items|] eqn:Hitems.
  2:{ split.
      - by destruct (OrderController.Order_create newId user body).
      - by intros (items & [=] & _). }
  destruct (OrderController.Order_create newId user body) as [order|] eqn:Hc.
  2:{ split.
      - by destruct items.
      - intros (? & _ & _ & [? [=]] & _). }
  apply Order_create_items in Hc as (Hv & _). rewrite Hitems in Hv. simpl in Hv.
  pose proof (decrementStock_succeeds_iff items _ (products db) Hv Hdb) as Hiff.
  destruct items as [|item rest].
  { split; [done|]. by intros (? & [= <-] & ? & _). }
  simpl products.
  destruct (OrderController.decrementStock (item :: rest) (products db))
    as [ps [err|]]; simpl in *.
  - split; [done|]. intros (? & [= <-] & _ & _ & Hall).
    by apply Hiff in Hall.
  - split; [|done]. intros _. exists (item :: rest).
    do 2 (split; [done|]). split; [by eexists|]. by apply Hiff.
Qed.

Lemma createOrder_succeeds_iff_witness :
  ∃ items,
    OrderController.orderItems
      (Scenario.checkout [Scenario.line Scenario.shirt 5]) = Some items
    ∧ items ≠ []
    ∧ is_Some (OrderController.Order_create 100 Scenario.alice
                 (Scenario.checkout [Scenario.line Scenario.shirt 5]))
    ∧ ∀ pid p, products Scenario.shop !! pid = Some p →
               requested pid items ≤ Product.stock p.
Proof.
  apply (proj1 (createOrder_succeeds_iff Scenario.shop Scenario.alice
                  (Scenario.checkout [Scenario.line Scenario.shirt 5]) 100
                  ltac:(by_evaluation))).
  by vm_compute.
Defined.

(** ** createOrder, then cancelOrder *)

(** What a successful [createOrder] did. *)
Lemma createOrder_success db user body newId db' status message order :
  OrderController.createOrder db user body newId
  = (db', Json status message order) →
  ∃ items,
    OrderController.orderItems body = Some items
    ∧ OrderController.Order_create newId user body = Some order
    ∧ db' = mkDb (withStockDelta (λ pid, - requested pid items) (products db))
                 (carts db) (<[newId := order]> (orders db)).
Proof.
  unfold OrderController.createOrder, catchAsyncErrors.
  destruct (OrderController.orderItems body) as [items|];
    [|by destruct (OrderController.Order_create newId user body)].
  destruct (OrderController.Order_create newId user body) as [order0|];
    [|by destruct items].
  destruct items as [|item rest]; [done|].
  pose proof (decrementStock_outcome (item :: rest) (products db)) as Hloop.
  simpl products.
  destruct (OrderController.decrementStock (item :: rest) (products db))
    as [ps [err|]]; [done|].
  intros [= <- <- <- <-]. exists (item :: rest). by rewrite Hloop.
Qed.

(** X2. On a database of valid documents, cancelling an order right after
    [createOrder] returned it, as its owner, succeeds and gives every
    product the stock it had before the order; the carts are untouched
    and the order stays in the database as Cancelled. *)
Theorem createOrder_then_cancelOrder db user body newId db1 message order :
  valid db →
  OrderController.createOrder db user body newId
  = (db1, Json 201 message order) →
  ∃ db2,
    OrderController.cancelOrder db1 user newId
    = (db2, Json 200 "Order cancelled successfully"
              (Order.set_status "Cancelled" order))
    ∧ products db2 = products db
    ∧ carts db2 = carts db
    ∧ orders db2 = <[newId := Order.set_status "Cancelled" order]> (orders db).
Proof.
  intros Hvalid Hcreate.
  assert (valid db1) as Hvalid1.
  { replace db1 with (step db (CreateOrder user body newId))
      by (simpl; by rewrite Hcreate).
    destruct Hvalid. split; [by apply step_nonneg|by apply step_quantities]. }
  apply createOrder_success in Hcreate as (items & Hitems & Hc & ->).
  apply Order_create_items in Hc as (Hv & Howner & Hstatus).
  rewrite Hitems in Hv. simpl in Hv.
  eexists. split; [|split; [|split]].
  - apply cancelOrder_succeeds; [done| |by left|].
    + simpl. by rewrite lookup_insert_eq.
    + unfold shippedOrDelivered. rewrite Hstatus. by intros [|].
  - simpl. rewrite withStockDelta_compose.
    rewrite (withStockDelta_ext _ (λ _, 0)); [apply withStockDelta_zero|].
    intros pid. rewrite (requested_recorded _ _ _ Hv). lia.
  - done.
  - simpl. by rewrite insert_insert_eq.
Qed.

Lemma createOrder_then_cancelOrder_witness :
  ∃ db2,
    OrderController.cancelOrder Scenario.placed Scenario.alice 100
    = (db2, Json 200 "Order cancelled successfully"
              (Order.set_status "Cancelled" Scenario.shirtOrder))
    ∧ products db2 = products Scenario.shop
    ∧ carts db2 = carts Scenario.shop
    ∧ orders db2
      = <[100%N := Order.set_status "Cancelled" Scenario.shirtOrder]>
          (orders Scenario.shop).
Proof.
  apply (createOrder_then_cancelOrder Scenario.shop Scenario.alice
           (Scenario.checkout [Scenario.line Scenario.shirt 2]) 100
           Scenario.placed "Order created successfully" Scenario.shirtOrder).
  - by_evaluation.
  - by vm_compute.
Defined.

(** ** Stored orders across operations *)

Lemma sameSnapshot_refl o : sameSnapshot o o.
Proof. by repeat split. Qed.

Lemma sameSnapshot_trans o1 o2 o3 :
  sameSnapshot o1 o2 → sameSnapshot o2 o3 → sameSnapshot o1 o3.
Proof. unfold sameSnapshot. intros H1 H2. destruct_and!. repeat split; congruence. Qed.

(** One operation that does not create a document under [id] keeps the
    order stored under [id]: its snapshot is the same, and the flags
    [isPaid] and [isDelivered] are not lowered. *)
Lemma step_keeps_order db op id o :
  orders db !! id = Some o → ¬ creates id op →
  ∃ o', orders (step db op) !! id = Some o'
    ∧ sameSnapshot o o'
    ∧ (Order.isPaid o = true → Order.isPaid o' = true)
    ∧ (Order.isDelivered o = true → Order.isDelivered o' = true).
Proof.
  intros Ho Hfresh.
  assert (∃ o', orders db !! id = Some o' ∧ sameSnapshot o o'
            ∧ (Order.isPaid o = true → Order.isPaid o' = true)
            ∧ (Order.isDelivered o = true → Order.isDelivered o' = true))
    as Hsame by (exists o; by repeat split).
  assert (∀ id0 o0 o0' db',
            orders db !! id0 = Some o0 → sameSnapshot o0 o0' →
            (Order.isPaid o0 = true → Order.isPaid o0' = true) →
            (Order.isDelivered o0 = true → Order.isDelivered o0' = true) →
            orders db' = <[id0 := o0']> (orders db) →
            ∃ o', orders db' !! id = Some o' ∧ sameSnapshot o o'
              ∧ (Order.isPaid o = true → Order.isPaid o' = true)
              ∧ (Order.isDelivered o = true → Order.isDelivered o' = true))
    as Hwrite.
  { intros id0 o0 o0' db' Ho0 Hsnap Hpaid Hdel ->.
    destruct (decide (id0 = id)) as [->|Hne].
    - rewrite lookup_insert_eq. exists o0'. by simplify_eq.
    - by rewrite lookup_insert_ne. }
  destruct op;
    match goal with |- context [step db ?o] =>
      try (by rewrite (proj2 (cart_handlers_leave_stock db o I)))
    end; simpl in *.
  - unfold OrderController.createOrder, catchAsyncErrors.
    repeat case_match; simpl; try done; by rewrite lookup_insert_ne.
  - unfold OrderController.updateOrderToPaid, catchAsyncErrors.
    destruct (orders db !! id0) as [order|] eqn:Ho0; [|done].
    destruct (OrderController.payer body); [|done].
    destruct (Order_save _ _ _) as [db'|] eqn:Hsave; [|done]. simpl.
    apply Order_save_products in Hsave as (_ & _ & Hsave).
    eapply (Hwrite _ _ _ _ Ho0); [| | |exact Hsave]; by repeat split.
  - unfold OrderController.updateOrderStatus, catchAsyncErrors.
    destruct (orders db !! id0) as [order|] eqn:Ho0; [|done].
    destruct (Order_save _ _ _) as [db'|] eqn:Hsave; [|done]. simpl.
    apply Order_save_products in Hsave as (_ & _ & Hsave).
    eapply (Hwrite _ _ _ _ Ho0); [| | |exact Hsave];
      repeat case_match; by repeat split.
  - unfold OrderController.cancelOrder, catchAsyncErrors.
    destruct (orders db !! id0) as [order|] eqn:Ho0; [|done].
    destruct (OrderController.notOwnerNorAdmin order user); [done|].
    destruct (_ || _); [done|].
    destruct (Order_save _ _ _) as [db'|] eqn:Hsave; [|done].
    apply Order_save_products in Hsave as (_ & _ & Hsave).
    assert (∃ o', orders db' !! id = Some o' ∧ sameSnapshot o o'
              ∧ (Order.isPaid o = true → Order.isPaid o' = true)
              ∧ (Order.isDelivered o = true → Order.isDelivered o' = true))
      as Hdb' by (eapply (Hwrite _ _ _ _ Ho0); [| | |exact Hsave];
                  by repeat split).
    by repeat case_match.
Qed.

Lemma run_keeps_order db ops id o :
  orders db !! id = Some o → Forall (λ op, ¬ creates id op) ops →
  ∃ o', orders (run db ops) !! id = Some o'
    ∧ sameSnapshot o o'
    ∧ (Order.isPaid o = true → Order.isPaid o' = true)
    ∧ (Order.isDelivered o = true → Order.isDelivered o' = true).
Proof.
  intros Ho Hfresh. revert db o Ho.
  induction Hfresh as [|op ops Hop _ IH]; intros db o Ho.
  { exists o. split; [done|]. by repeat split. }
  destruct (step_keeps_order db op id o Ho Hop) as (o1 & Ho1 & Hs1 & Hp1 & Hd1).
  destruct (IH _ _ Ho1) as (o2 & Ho2 & Hs2 & Hp2 & Hd2).
  exists o2. split; [done|]. split; [by eapply sameSnapshot_trans|]. auto.
Qed.

(** X3. A stored order is never deleted, and its id, owner, items,
    shipping address, payment method and prices never change: after any
    sequence of cart and order operations in which no [createOrder] is
    given the order's id for its new document, the order is still stored
    with the same snapshot. *)
Theorem order_snapshot_frozen db ops id o :
  orders db !! id = Some o →
  Forall (λ op, ¬ creates id op) ops →
  ∃ o', orders (run db ops) !! id = Some o' ∧ sameSnapshot o o'.
Proof.
  intros Ho Hfresh.
  destruct (run_keeps_order db ops id o Ho Hfresh) as (o' & ? & ? & _).
  by exists o'.
Qed.

(** X4. Payment and delivery are never taken back: once [isPaid] or
    [isDelivered] of a stored order is true, it stays true through every
    sequence of operations, also when the status is assigned anew. *)
Theorem order_flags_never_reset db ops id o :
  orders db !! id = Some o →
  Forall (λ op, ¬ creates id op) ops →
  ∃ o', orders (run db ops) !! id = Some o'
    ∧ (Order.isPaid o = true → Order.isPaid o' = true)
    ∧ (Order.isDelivered o = true → Order.isDelivered o' = true).
Proof.
  intros Ho Hfresh.
  destruct (run_keeps_order db ops id o Ho Hfresh) as (o' & ? & _ & ? & ?).
  by exists o'.
Qed.

Lemma afterwards_fresh : Forall (λ op, ¬ creates 100 op) Story.afterwards.
Proof.
  unfold Story.afterwards.
  repeat (apply Forall_cons_2;
          [simpl; intros H; first [exact H | discriminate H]|]).
  apply Forall_nil_2.
Qed.

Lemma order_snapshot_frozen_witness :
  ∃ o', orders (run Story.delivered Story.afterwards) !! 100%N = Some o'
        ∧ sameSnapshot
            (Order.set_delivered 7
               (Order.set_status "Delivered" Scenario.shirtOrder)) o'.
Proof.
  apply (order_snapshot_frozen Story.delivered Story.afterwards 100).
  - by vm_compute.
  - exact afterwards_fresh.
Defined.

Lemma order_flags_never_reset_witness :
  ∃ o', orders (run Story.delivered Story.afterwards) !! 100%N = Some o'
        ∧ (Order.isPaid
             (Order.set_delivered 7
                (Order.set_status "Delivered" Scenario.shirtOrder)) = true →
           Order.isPaid o' = true)
        ∧ (Order.isDelivered
             (Order.set_delivered 7
                (Order.set_status "Delivered" Scenario.shirtOrder)) = true →
           Order.isDelivered o' = true).
Proof.
  apply (order_flags_never_reset Story.delivered Story.afterwards 100).
  - by vm_compute.
  - exact afterwards_fresh.
Defined.

Lemma step_statusesInEnum db op :
  statusesInEnum db → statusesInEnum (step db op).
Proof.
  intros Hdb. unfold statusesInEnum in *.
  assert (∀ id o' db', Order_save id o' db = inl db' →
            map_Forall (λ _ o, Order.status o ∈ Order.statusEnum) (orders db'))
    as Hsave.
  { intros id o' db'. unfold Order_save. case_bool_decide; [|done].
    intros [= <-]. by apply map_Forall_insert_2. }
  destruct op;
    match goal with |- context [step db ?o] =>
      try (by rewrite (proj2 (cart_handlers_leave_stock db o I)))
    end; simpl.
  - unfold OrderController.createOrder, catchAsyncErrors.
    destruct (OrderController.Order_create newId user body) as [order|] eqn:Hc.
    + apply Order_create_items in Hc as (_ & _ & Hstatus).
      assert (Order.status order ∈ Order.statusEnum)
        by (rewrite Hstatus; apply list_elem_of_here).
      repeat case_match; simpl; try done; by apply map_Forall_insert_2.
    + by repeat case_match.
  - unfold OrderController.updateOrderToPaid, catchAsyncErrors.
    repeat case_match; simpl; eauto.
  - unfold OrderController.updateOrderStatus, catchAsyncErrors.
    repeat case_match; simpl; eauto.
  - unfold OrderController.cancelOrder, catchAsyncErrors.
    destruct (orders db !! id) as [order|]; [|done].
    destruct (OrderController.notOwnerNorAdmin order user); [done|].
    destruct (_ || _); [done|].
    destruct (Order_save _ _ _) as [db'|] eqn:Hs; [|done].
    apply Hsave in Hs. by repeat case_match.
Qed.

(** X5. The status of every stored order is one of the six values of the
    schema: [createOrder] stores Processing, [cancelOrder] stores
    Cancelled, and [updateOrderStatus] cannot store a value outside the
    enum, whatever the request carries. *)
Theorem status_always_in_enum db ops :
  statusesInEnum db →
  ∀ id o, orders (run db ops) !! id = Some o →
          Order.status o ∈ Order.statusEnum.
Proof.
  intros Hdb. change (statusesInEnum (run db ops)).
  revert db Hdb. induction ops as [|op ops IH]; intros db Hdb; [done|].
  simpl. by apply IH, step_statusesInEnum.
Qed.

Lemma status_always_in_enum_witness :
  statusesInEnum
    (run Story.delivered
       (UpdateOrderStatus Scenario.root 100 (Story.toStatus "Returned") 8
        :: Story.afterwards)).
Proof.
  intros id o.
  apply (status_always_in_enum Story.delivered
           (UpdateOrderStatus Scenario.root 100 (Story.toStatus "Returned") 8
            :: Story.afterwards)).
  unfold statusesInEnum. by_evaluation.
Defined.

(** ** updateOrderStatus *)




(** ** The cart handlers *)

Lemma Cart_save_carts owner cart db db' :
  Cart_save owner cart db = inl db' →
  carts db' = <[owner := cart]> (carts db).
Proof. by intros [-> _]%Cart_save_inl. Qed.

(** An operation writes no cart but the requester's, and the order
    handlers write no cart at all. *)
Lemma step_carts db op other :
  (other ≠ User.id (actor op) → carts (step db op) !! other = carts db !! other)
  ∧ (¬ cartOperation op → carts (step db op) = carts db).
Proof.
  split.
  - intros Hother. destruct op; simpl in *.
    + unfold CartController.getCart. case_match; simpl; [done|].
      by rewrite lookup_insert_ne.
    + unfold CartController.addToCart, catchAsyncErrors.
      repeat case_match; simpl; try done;
        match goal with H : Cart_save _ _ _ = inl _ |- _ =>
          apply Cart_save_carts in H as -> end;
        by rewrite lookup_insert_ne.
    + unfold CartController.updateCartItem, catchAsyncErrors.
      repeat case_match; simpl; try done;
        match goal with H : Cart_save _ _ _ = inl _ |- _ =>
          apply Cart_save_carts in H as -> end;
        by rewrite lookup_insert_ne.
    + unfold CartController.removeFromCart, catchAsyncErrors.
      repeat case_match; simpl; try done;
        match goal with H : Cart_save _ _ _ = inl _ |- _ =>
          apply Cart_save_carts in H as -> end;
        by rewrite lookup_insert_ne.
    + unfold CartController.clearCart, catchAsyncErrors.
      repeat case_match; simpl; try done;
        match goal with H : Cart_save _ _ _ = inl _ |- _ =>
          apply Cart_save_carts in H as -> end;
        by rewrite lookup_insert_ne.
    + unfold OrderController.createOrder, catchAsyncErrors.
      by repeat case_match.
    + unfold OrderController.updateOrderToPaid, catchAsyncErrors.
      repeat case_match; simpl; try done;
        match goal with H : Order_save _ _ _ = inl _ |- _ =>
          by apply Order_save_products in H as (_ & -> & _) end.
    + unfold OrderController.updateOrderStatus, catchAsyncErrors.
      repeat case_match; simpl; try done;
        match goal with H : Order_save _ _ _ = inl _ |- _ =>
          by apply Order_save_products in H as (_ & -> & _) end.
    + unfold OrderController.cancelOrder, catchAsyncErrors.
      repeat case_match; simpl; try done;
        match goal with H : Order_save _ _ _ = inl _ |- _ =>
          by apply Order_save_products in H as (_ & -> & _) end.
  - intros Hop. destruct op; simpl in *; try tauto.
    + unfold OrderController.createOrder, catchAsyncErrors.
      by repeat case_match.
    + unfold OrderController.updateOrderToPaid, catchAsyncErrors.
      repeat case_match; simpl; try done;
        match goal with H : Order_save _ _ _ = inl _ |- _ =>
          by apply Order_save_products in H as (_ & -> & _) end.
    + unfold OrderController.updateOrderStatus, catchAsyncErrors.
      repeat case_match; simpl; try done;
        match goal with H : Order_save _ _ _ = inl _ |- _ =>
          by apply Order_save_products in H as (_ & -> & _) end.
    + unfold OrderController.cancelOrder, catchAsyncErrors.
      repeat case_match; simpl; try done;
        match goal with H : Order_save _ _ _ = inl _ |- _ =>
          by apply Order_save_products in H as (_ & -> & _) end.
Qed.

(** X7. A request never changes the cart of another user: after any
    sequence of operations of the cart and order controllers, the cart
    stored for a user who sent none of the cart requests is the one stored
    before; requests to the order handlers change no cart at all, their
    sender's included. *)
Theorem carts_of_others_untouched db ops other :
  Forall (λ op, other ≠ User.id (actor op) ∨ ¬ cartOperation op) ops →
  carts (run db ops) !! other = carts db !! other.
Proof.
  intros Hops. revert db.
  induction Hops as [|op ops Hop _ IH]; intros db; [done|].
  simpl. rewrite IH.
  destruct (step_carts db op other) as [Hother Horder].
  destruct Hop as [Hop|Hop]; [by apply Hother|by rewrite Horder].
Qed.

Lemma carts_of_others_untouched_witness :
  carts (run Scenario.withCart Story.afterwards) !! User.id Scenario.alice
  = carts Scenario.withCart !! User.id Scenario.alice.
Proof.
  apply (carts_of_others_untouched Scenario.withCart Story.afterwards).
  unfold Story.afterwards.
  repeat (apply Forall_cons_2;
          [first [by left | right; simpl; by intros H]|]).
  apply Forall_nil_2.
Defined.

(** X8. The cart handlers hold no stock: a sequence of cart operations
    (getCart, addToCart, updateCartItem, removeFromCart, clearCart), however
    long, leaves every product and every order as it was. *)
Theorem cart_operations_hold_no_stock db ops :
  Forall cartOperation ops →
  products (run db ops) = products db ∧ orders (run db ops) = orders db.
Proof.
  intros Hops. revert db.
  induction Hops as [|op ops Hop _ IH]; intros db; [done|].
  simpl. destruct (IH (step db op)) as [-> ->].
  by apply cart_handlers_leave_stock.
Qed.

Lemma cart_operations_hold_no_stock_witness :
  products (run Scenario.shop Story.shopping) = products Scenario.shop
  ∧ orders (run Scenario.shop Story.shopping) = orders Scenario.shop.
Proof.
  apply (cart_operations_hold_no_stock Scenario.shop Story.shopping).
  unfold Story.shopping. repeat (apply Forall_cons_2; [exact I|]).
  apply Forall_nil_2.
Defined.

(** X9. A successful [updateCartItem] changes nothing but the quantity of
    the item with the given id: the cart has the same items at the same
    places, each with its product, size, color and the price captured when
    it was added, and the new quantity lies between 1 and the stock the
    product has at that moment. *)
Theorem updateCartItem_effect db user itemId quantity db' message cart' :
  CartController.updateCartItem db user itemId quantity
  = (db', Json 200 message cart') →
  ∃ i item product,
    cartItems db user !! i = Some item
    ∧ CartItem._id item = itemId
    ∧ products db !! CartItem.product item = Some product
    ∧ 1 ≤ quantity ≤ Product.stock product
    ∧ Cart.items cart'
      = <[i := CartItem.set_quantity quantity item]> (cartItems db user)
    ∧ length (Cart.items cart') = length (cartItems db user)
    ∧ CartItem.key <$> Cart.items cart' = CartItem.key <$> cartItems db user
    ∧ CartItem.price <$> Cart.items cart' = CartItem.price <$> cartItems db user
    ∧ carts db' = <[User.id user := cart']> (carts db)
    ∧ products db' = products db.
Proof.
  unfold CartController.updateCartItem, catchAsyncErrors, cartItems.
  destruct (quantity <? 1) eqn:Hq; [done|].
  destruct (carts db !! User.id user) as [cart|] eqn:Hcart; [|done]. simpl.
  destruct (list_find _ _) as [[i item]|] eqn:Hfind; [|done].
  destruct (products db !! CartItem.product item) as [product|] eqn:Hp; [|done].
  destruct (Product.stock product <? quantity) eqn:Hs; [done|].
  destruct (Cart_save _ _ _) as [db1|err] eqn:Hsave; [|done].
  intros [= <- <- <-].
  apply list_find_Some in Hfind as (Hi & Hid & _).
  pose proof (Cart_save_products _ _ _ _ Hsave) as [Hprod _].
  apply Cart_save_carts in Hsave.
  exists i, item, product. simpl.
  do 3 (split; [done|]). split; [lia|]. split; [done|].
  split; [by rewrite length_insert|].
  split; [|split; [|done]].
  - rewrite list_fmap_insert. apply list_insert_id.
    by rewrite list_lookup_fmap, Hi.
  - rewrite list_fmap_insert. apply list_insert_id.
    by rewrite list_lookup_fmap, Hi.
Qed.

Lemma updateCartItem_effect_witness :
  ∃ i item product,
    cartItems Scenario.withCart Scenario.alice !! i = Some item
    ∧ CartItem._id item = 50%N
    ∧ products Scenario.withCart !! CartItem.product item = Some product
    ∧ 1 ≤ 5 ≤ Product.stock product
    ∧ Cart.items
        (Cart.mk 1 [CartItem.mk 50 Scenario.shirt 5 (Some "M"%string)
                      (Some "red"%string) 499])
      = <[i := CartItem.set_quantity 5 item]>
          (cartItems Scenario.withCart Scenario.alice)
    ∧ length (Cart.items
                (Cart.mk 1 [CartItem.mk 50 Scenario.shirt 5 (Some "M"%string)
                              (Some "red"%string) 499]))
      = length (cartItems Scenario.withCart Scenario.alice)
    ∧ CartItem.key
        <$> Cart.items
              (Cart.mk 1 [CartItem.mk 50 Scenario.shirt 5 (Some "M"%string)
                            (Some "red"%string) 499])
      = CartItem.key <$> cartItems Scenario.withCart Scenario.alice
    ∧ CartItem.price
        <$> Cart.items
              (Cart.mk 1 [CartItem.mk 50 Scenario.shirt 5 (Some "M"%string)
                            (Some "red"%string) 499])
      = CartItem.price <$> cartItems Scenario.withCart Scenario.alice
    ∧ carts (step Scenario.withCart (UpdateCartItem Scenario.alice 50 5))
      = <[User.id Scenario.alice :=
            Cart.mk 1 [CartItem.mk 50 Scenario.shirt 5 (Some "M"%string)
                         (Some "red"%string) 499]]>
          (carts Scenario.withCart)
    ∧ products (step Scenario.withCart (UpdateCartItem Scenario.alice 50 5))
      = products Scenario.withCart.
Proof.
  apply (updateCartItem_effect Scenario.withCart Scenario.alice 50 5
           (step Scenario.withCart (UpdateCartItem Scenario.alice 50 5))
           "Cart item updated").
  by vm_compute.
Defined.

Lemma not_matches itemId item :
  CartItem._id item ≠ itemId ∧ CartItem.product item ≠ itemId
  ↔ ¬ matches itemId item.
Proof. unfold matches. tauto. Qed.

(** X10. A successful [removeFromCart] removes exactly the items whose own
    id or whose product's id is the given one, all of them, and keeps the
    others in their order; at least one item goes. Asking for the same
    removal again is answered 404 and changes nothing. *)
Theorem removeFromCart_effect db user itemId db' message cart' :
  CartController.removeFromCart db user itemId
  = (db', Json 200 message cart') →
  (∀ item, item ∈ Cart.items cart'
           ↔ item ∈ cartItems db user ∧ ¬ matches itemId item)
  ∧ Cart.items cart' `sublist_of` cartItems db user
  ∧ (length (Cart.items cart') < length (cartItems db user))%nat
  ∧ carts db' = <[User.id user := cart']> (carts db)
  ∧ CartController.removeFromCart db' user itemId
    = (db', Next (ErrorHandler "Item not found in cart" 404)).
Proof.
  intros (Hitems & Hlen & ->)%removeFromCart_success.
  split; [|split; [|split; [|split; [done|]]]].
  - intros item. rewrite Hitems, list_elem_of_filter, not_matches. tauto.
  - rewrite Hitems. apply sublist_filter.
  - pose proof (length_filter
      (λ item, CartItem._id item ≠ itemId ∧ CartItem.product item ≠ itemId)
      (cartItems db user)) as Hle.
    rewrite <- Hitems in Hle. lia.
  - unfold CartController.removeFromCart. simpl. rewrite lookup_insert_eq.
    rewrite bool_decide_eq_true_2; [done|]. f_equal.
    apply filter_keeps_all. rewrite Hitems.
    apply Forall_forall. by intros item [? _]%list_elem_of_filter.
Qed.

Lemma removeFromCart_effect_witness :
  CartController.removeFromCart
    (step Scenario.withCart (RemoveFromCart Scenario.alice Scenario.shirt))
    Scenario.alice Scenario.shirt
  = (step Scenario.withCart (RemoveFromCart Scenario.alice Scenario.shirt),
     Next (ErrorHandler "Item not found in cart" 404)).
Proof.
  apply (removeFromCart_effect Scenario.withCart Scenario.alice Scenario.shirt
           _ "Item removed from cart" (Cart.mk 1 [])).
  by vm_compute.
Defined.

(** X11. [getCart] never fails and creates the cart at most once: it
    answers 200 with the cart that is stored afterwards, adds or removes
    no item, touches no product and no order, and a second call changes
    nothing and gives the same answer. Once it has been called,
    [clearCart] no longer answers 404. *)
Theorem getCart_creates_once db user :
  let '(db1, response) := CartController.getCart db user in
  (∃ cart,
     response = Json 200 "" cart
     ∧ carts db1 !! User.id user = Some cart
     ∧ Cart.items cart = cartItems db user)
  ∧ products db1 = products db ∧ orders db1 = orders db
  ∧ CartController.getCart db1 user = (db1, response)
  ∧ succeeded (CartController.clearCart db1 user).2 = true.
Proof.
  unfold CartController.getCart, CartController.clearCart, cartItems, Cart_save.
  destruct (carts db !! User.id user) as [cart|] eqn:Hcart; simpl.
  - rewrite Hcart. simpl. split; [by eexists|]. done.
  - rewrite lookup_insert_eq. simpl. split; [by eexists|]. done.
Qed.

(** ** The order requests of a stranger *)

(** X12. What an authenticated requester who neither owns an order nor is
    an admin can do to it through [GET /:id], [PUT /:id/pay],
    [PUT /:id/status] and [PUT /:id/cancel]: nothing but marking it paid.
    Every request other than pay ends in an error and changes nothing:
    401 from [getOrderById] and [cancelOrder], 403 from the admin
    middleware before [updateOrderStatus], and the TypeError of
    [getOrderById] when the owner of the order was deleted. No request
    changes a product, a cart, another order, or the status, delivery,
    tracking number or snapshot of the order. *)
Theorem stranger_changes_payment_only db user id o request :
  orders db !! id = Some o → ¬ ownerOrAdmin o user →
  let '(db', response) := OrderRequests.handle db user id request in
  products db' = products db
  ∧ carts db' = carts db
  ∧ (∀ id', id' ≠ id → orders db' !! id' = orders db !! id')
  ∧ (∃ o', orders db' !! id = Some o'
       ∧ sameSnapshot o o'
       ∧ Order.status o' = Order.status o
       ∧ Order.isDelivered o' = Order.isDelivered o
       ∧ Order.deliveredAt o' = Order.deliveredAt o
       ∧ Order.trackingNumber o' = Order.trackingNumber o)
  ∧ match request with
    | OrderRequests.Pay _ _ => True
    | OrderRequests.GetOrder None =>
        db' = db ∧ ∃ message, response = Next (TypeError message)
    | OrderRequests.GetOrder (Some _) | OrderRequests.Cancel =>
        db' = db ∧ ∃ message, response = Next (ErrorHandler message 401)
    | OrderRequests.SetStatus _ _ =>
        db' = db ∧ ∃ message, response = Next (ErrorHandler message 403)
    end.
Proof.
  intros Ho Hwho.
  assert (∃ o', orders db !! id = Some o' ∧ sameSnapshot o o'
            ∧ Order.status o' = Order.status o
            ∧ Order.isDelivered o' = Order.isDelivered o
            ∧ Order.deliveredAt o' = Order.deliveredAt o
            ∧ Order.trackingNumber o' = Order.trackingNumber o) as Hsame
    by (exists o; by repeat split).
  assert (OrderController.notOwnerNorAdmin o user = true) as Hstranger
    by (by apply notOwnerNorAdmin_true).
  assert (User.role user ≠ "admin"%string) as Hrole
    by (intros Hadmin; apply Hwho; by right).
  destruct request as [[owner|]| | |]; simpl.
  - unfold OrderRequests.getOrderById. rewrite Ho, Hstranger.
    repeat split; eauto.
  - unfold OrderRequests.getOrderById, catchAsyncErrors. rewrite Ho.
    repeat split; eauto.
  - unfold OrderController.updateOrderToPaid, catchAsyncErrors. rewrite Ho.
    destruct (OrderController.payer body) as [p|]; [|by repeat split].
    destruct (Order_save _ _ _) as [db'|err] eqn:Hsave; [|by repeat split].
    apply Order_save_products in Hsave as (-> & -> & ->).
    do 2 (split; [done|]). split; [intros id' Hne; by rewrite lookup_insert_ne|].
    split; [|done]. rewrite lookup_insert_eq. eexists. split; [done|].
    by repeat split.
  - unfold admin. rewrite bool_decide_eq_false_2 by done.
    repeat split; eauto.
  - unfold OrderController.cancelOrder. rewrite Ho, Hstranger.
    repeat split; eauto.
Qed.

Lemma stranger_changes_payment_only_witness :
  products
    (OrderRequests.handle Scenario.placed Scenario.bob 100
       (OrderRequests.Pay Scenario.receipt 8)).1
  = products Scenario.placed
  ∧ Order.status
      <$> orders
            (OrderRequests.handle Scenario.placed Scenario.bob 100
               (OrderRequests.Pay Scenario.receipt 8)).1 !! 100%N
    = Some "Processing"%string.
Proof.
  pose proof (stranger_changes_payment_only Scenario.placed Scenario.bob 100
                Scenario.shirtOrder (OrderRequests.Pay Scenario.receipt 8)
                ltac:(by vm_compute)) as H.
  destruct (OrderRequests.handle _ _ _ _) as [db' response].
  destruct H as (Hp & _ & _ & (o' & Ho' & _ & Hs & _) & _).
  - intros [Howner|Hadmin]; [discriminate Howner|discriminate Hadmin].
  - simpl. split; [exact Hp|]. rewrite Ho'. simpl. by rewrite Hs.
Defined.

(** X14. [updateOrderToPaid] checks neither the payment flag nor the
    status: on every stored order, also one that is already paid or is
    Cancelled, a request with a payer is answered 200, and the order is
    stored as paid at the time of this request with the receipt of this
    request in place of any earlier one. Status, delivery and snapshot
    stay, and no stock moves. *)
Theorem updateOrderToPaid_overwrites db user id o body payer now :
  orders db !! id = Some o →
  Order.status o ∈ Order.statusEnum →
  OrderController.payer body = Some payer →
  ∃ db' o',
    OrderController.updateOrderToPaid db user id body now
    = (db', Json 200 "Order updated to paid" o')
    ∧ orders db' = <[id := o']> (orders db)
    ∧ Order.isPaid o' = true
    ∧ Order.paidAt o' = Some now
    ∧ Order.paymentResult o' = Some (receiptOf body payer)
    ∧ Order.status o' = Order.status o
    ∧ Order.isDelivered o' = Order.isDelivered o
    ∧ sameSnapshot o o'
    ∧ products db' = products db.
Proof.
  intros Ho Hs Hp.
  unfold OrderController.updateOrderToPaid, catchAsyncErrors, Order_save.
  rewrite Ho, Hp. simpl. rewrite bool_decide_eq_true_2 by done.
  do 2 eexists. split; [done|]. by repeat split.
Qed.

Lemma updateOrderToPaid_overwrites_witness :
  ∃ db' o',
    OrderController.updateOrderToPaid
      (step Scenario.cancelled
         (UpdateOrderToPaid Scenario.alice 100 Scenario.receipt 8))
      Scenario.bob 100
      (OrderController.mkPayBody (Some "PAY-2"%string) None None
         (Some (OrderController.mkPayerBody None))) 9
    = (db', Json 200 "Order updated to paid" o')
    ∧ Order.paidAt o' = Some 9
    ∧ Order.paymentResult o'
      = Some (PaymentResult.mk (Some "PAY-2"%string) None None None)
    ∧ Order.status o' = "Cancelled"%string.
Proof.
  destruct (updateOrderToPaid_overwrites
              (step Scenario.cancelled
                 (UpdateOrderToPaid Scenario.alice 100 Scenario.receipt 8))
              Scenario.bob 100
              (Order.set_paid 8
                 (receiptOf Scenario.receipt
                    (OrderController.mkPayerBody
                       (Some "bob@example.com"%string)))
                 (Order.set_status "Cancelled" Scenario.shirtOrder))
              (OrderController.mkPayBody (Some "PAY-2"%string) None None
                 (Some (OrderController.mkPayerBody None)))
              (OrderController.mkPayerBody None) 9
              ltac:(by vm_compute) ltac:(by_evaluation) eq_refl)
    as (db' & o' & Heq & _ & _ & Hat & Hreceipt & Hstatus & _).
  exists db', o'. split; [exact Heq|]. split; [exact Hat|].
  split; [exact Hreceipt|exact Hstatus].
Defined.

(** ** Requests that fail *)

(** X15. On a database of valid documents, a request that is answered with
    an error has written nothing, for every handler of the cart and order
    controllers except [createOrder]: the database after the call is the
    database before it. *)
Theorem failed_requests_write_nothing db op err :
  valid db → ¬ orderCreation op →
  (outcome db op).2 = Some err → (outcome db op).1 = db.
Proof.
  intros Hvalid Hop. destruct op; simpl in *; try tauto.
  - unfold CartController.getCart. by case_match.
  - unfold CartController.addToCart, catchAsyncErrors.
    by repeat case_match.
  - unfold CartController.updateCartItem, catchAsyncErrors.
    by repeat case_match.
  - unfold CartController.removeFromCart, catchAsyncErrors.
    by repeat case_match.
  - unfold CartController.clearCart, catchAsyncErrors.
    by repeat case_match.
  - unfold OrderController.updateOrderToPaid, catchAsyncErrors.
    by repeat case_match.
  - unfold OrderController.updateOrderStatus, catchAsyncErrors.
    by repeat case_match.
  - destruct (orders db !! id) as [order|] eqn:Ho.
    2:{ unfold OrderController.cancelOrder. by rewrite Ho. }
    destruct (OrderController.notOwnerNorAdmin order user) eqn:Hauth.
    { unfold OrderController.cancelOrder. by rewrite Ho, Hauth. }
    destruct (decide (shippedOrDelivered order)) as [Hs|Hs].
    { rewrite (cancelOrder_shipped _ _ _ _ Ho Hs). by rewrite Hauth. }
    apply notOwnerNorAdmin_false in Hauth.
    by rewrite (cancelOrder_succeeds _ _ _ _ Hvalid Ho Hauth Hs).
Qed.

Lemma failed_requests_write_nothing_witness :
  (outcome Scenario.shipped (CancelOrder Scenario.alice 100)).1
  = Scenario.shipped.
Proof.
  apply (failed_requests_write_nothing Scenario.shipped
           (CancelOrder Scenario.alice 100)
           (ErrorHandler
              "Cannot cancel order that has been shipped or delivered" 400)).
  - by_evaluation.
  - by intros H.
  - by vm_compute.
Defined.

(** X16. Every item of every stored order has a quantity of at least 1,
    through every sequence of operations: [Order.create] stores no order
    with a smaller quantity, and no handler changes the items of a stored
    order. *)
Theorem stored_quantities_positive db ops :
  valid db →
  ∀ id o item, orders (run db ops) !! id = Some o →
               item ∈ Order.orderItems o → 1 ≤ OrderItem.quantity item.
Proof.
  intros Hvalid id o item Ho Hin.
  destruct (run_valid db ops Hvalid) as [_ Hqty].
  specialize (Hqty _ _ Ho). simpl in Hqty.
  rewrite Forall_forall in Hqty. by apply Hqty.
Qed.

Lemma stored_quantities_positive_witness :
  quantitiesPositive (orders (run Story.delivered Story.afterwards)).
Proof.
  intros id o Ho. apply Forall_forall. intros item Hin.
  exact (stored_quantities_positive Story.delivered Story.afterwards
           ltac:(by_evaluation) id o item Ho Hin).
Defined.

(** ** The error middleware *)

(** X17. The answer to the errors of the handlers: an [ErrorHandler] with a
    message and a non-zero status is sent with exactly that status and
    message; a validation error of mongoose and a [TypeError], which
    carry no status, are sent with status 500. The status is in all cases
    the one [errorMiddleware] of the controllers' model gives. *)
Theorem errorMiddleware_answers err :
  ∃ message,
    ErrorMiddleWare.errorMiddleware (ErrorMiddleWare.thrown err) false
    = ErrorMiddleWare.Sent (errorMiddleware err) message
    ∧ match err with
      | ErrorHandler m c => m ≠ ""%string → message = m
      | ValidationError _ | TypeError _ => errorMiddleware err = 500
      end.
Proof.
  destruct err as [m c|failed|m]; unfold ErrorMiddleWare.errorMiddleware;
    simpl.
  - eexists. split; [done|]. intros Hm.
    by rewrite bool_decide_eq_false_2.
  - by eexists.
  - by eexists.
Qed.

(** X18. Unless the headers were already sent, the middleware always sends
    an answer, and never with status 0: status 400 for an error with code
    11000 or with the name jsonwebTokenError, TokenExpiredError or
    CastError, and otherwise the error's own status, or 500 when it has
    none or has 0. *)
Theorem errorMiddleware_status err :
  ∃ status message,
    ErrorMiddleWare.errorMiddleware err false
    = ErrorMiddleWare.Sent status message
    ∧ status ≠ 0
    ∧ (ErrorMiddleWare.rewritten err → status = 400)
    ∧ (¬ ErrorMiddleWare.rewritten err →
       status = match ErrorMiddleWare.statusCode err with
                | Some c => if c =? 0 then 500 else c
                | None => 500
                end).
Proof.
  unfold ErrorMiddleWare.errorMiddleware, ErrorMiddleWare.rewritten.
  destruct err as [name message statusCode code keys path errors]. simpl.
  repeat case_bool_decide; simpl in *; simplify_eq;
    do 2 eexists; (split; [done|]);
    (split; [repeat case_match; lia|]);
    (split; [try done; by intros [|[|[|]]]|]);
    (intros Hrw; try done; exfalso; apply Hrw; tauto).
Qed.

(** ** deleteProductImage *)

(** X19. After a successful [deleteProductImage] the images of the
    product are the stored ones other than the given URL, in their order;
    the URL was among them and is no longer. When the stored URLs are
    distinct, exactly one image goes and at least one stays. *)
Theorem deleteProductImage_effect images imageUrl images' message kept :
  ProductController.deleteProductImage images imageUrl
  = (images', Json 200 message kept) →
  ∃ stored url,
    images = Some stored ∧ imageUrl = Some url ∧ images' = Some kept
    ∧ url ∈ stored
    ∧ (∀ img, img ∈ kept ↔ img ∈ stored ∧ img ≠ url)
    ∧ kept `sublist_of` stored
    ∧ (NoDup stored → S (length kept) = length stored ∧ kept ≠ []).
Proof.
  unfold ProductController.deleteProductImage, OrderController.truthy.
  destruct imageUrl as [url|]; [|done]. simpl.
  case_bool_decide as Hempty; [done|].
  destruct images as [stored|]; [|done].
  case_bool_decide as Hin; [|done]. simpl.
  case_bool_decide as Hlen; [done|].
  intros [= <- <- <-]. exists stored, url.
  do 4 (split; [done|]).
  split; [intros img; rewrite list_elem_of_filter; tauto|].
  split; [apply sublist_filter|].
  intros Hnodup.
  assert (S (length (filter (λ img, img ≠ url) stored)) = length stored) as Hone.
  { clear Hlen. induction Hnodup as [|x l Hx Hl IH]; [by apply elem_of_nil in Hin|].
    rewrite filter_cons. destruct (decide (x = url)) as [->|Hne].
    - rewrite decide_False by tauto. simpl. f_equal.
      f_equal. apply filter_keeps_all, Forall_forall. by intros y Hy ->.
    - rewrite decide_True by done. simpl. f_equal. apply IH.
      apply elem_of_cons in Hin as [->|Hin]; [done|done]. }
  split; [done|]. intros Hnil. rewrite Hnil in Hone. simpl in Hone. lia.
Qed.

Lemma deleteProductImage_effect_witness :
  ∃ stored url,
    Some ["a.png"; "b.png"; "c.png"]%string = Some stored
    ∧ Some "b.png"%string = Some url
    ∧ Some ["a.png"; "c.png"]%string = Some ["a.png"; "c.png"]%string
    ∧ url ∈ stored
    ∧ (∀ img, img ∈ ["a.png"; "c.png"]%string ↔ img ∈ stored ∧ img ≠ url)
    ∧ ["a.png"; "c.png"]%string `sublist_of` stored
    ∧ (NoDup stored →
       S (length ["a.png"; "c.png"]%string) = length stored
       ∧ ["a.png"; "c.png"]%string ≠ []).
Proof.
  apply (deleteProductImage_effect (Some ["a.png"; "b.png"; "c.png"]%string)
           (Some "b.png"%string) _ "Product image deleted successfully").
  by vm_compute.
Defined.

(** ** createOrder and the catalog *)



(** * Requests outside the integers and the canonical ids *)

(** ** A quantity that is not an integer *)

(** Five shirts are in stock and an order asks for one and a half: the
    quantity passes [min: 1], the new stock passes [min: 0], and the
    stock stored is three and a half. *)
Lemma stock_not_integer :
  Fractional.createOrder {[10%N := 5%Q]}
    [Fractional.mkOrderItemBody 10 (3 # 2)]
  = ({[10%N := (7 # 2)%Q]}, true)
  ∧ (0 <= 7 # 2)%Q
  ∧ ¬ Fractional.integer (7 # 2).
Proof.
  split; [by vm_compute|]. split; [by vm_compute|].
  intros [z Hz]. unfold Qeq in Hz. simpl in Hz. lia.
Qed.

(** ** createOrder and the stock check of the cart handlers *)

(** C4. No shirt is left in stock. The cart handlers answer a request for
    one shirt with 400 Insufficient stock and write nothing; [createOrder]
    has no such check: it stores the order, the save of the product is
    rejected by the schema, and the request is answered 500 with a
    validation error, the order document left in the database. *)
Theorem createOrder_misses_stock_check :
  Product.stock <$> products Scenario.soldOut !! Scenario.shirt = Some 0
  ∧ CartController.addToCart Scenario.soldOut Scenario.bob
      (Scenario.redShirt 1) 51
    = (Scenario.soldOut, Next (ErrorHandler "Insufficient stock" 400))
  ∧ InsufficientStock (ErrorHandler "Insufficient stock" 400)
  ∧ ∃ db',
      OrderController.createOrder Scenario.soldOut Scenario.bob
        (Scenario.checkout [Scenario.line Scenario.shirt 1]) 101
      = (db', Next (ValidationError "stock"))
      ∧ ¬ InsufficientStock (ValidationError "stock")
      ∧ errorMiddleware (ValidationError "stock") = 500
      ∧ Product.stock <$> products db' !! Scenario.shirt = Some 0
      ∧ Order.user <$> orders db' !! 101%N = Some (User.id Scenario.bob)
      ∧ orders Scenario.soldOut !! 101%N = None.
Proof.
  do 2 (split; [by vm_compute|]). split; [by eexists|].
  eexists. split; [by vm_compute|].
  split; [by intros (message & [=] & _)|]. by vm_compute.
Qed.

(** ** addToCart and the spelling of the product id *)

Lemma list_find_iff {A} (P Q : A → Prop)
    `{!∀ x, Decision (P x), !∀ x, Decision (Q x)} (l : list A) :
  (∀ x, P x ↔ Q x) → list_find P l = list_find Q l.
Proof.
  intros HPQ. induction l as [|x l IH]; simpl; [done|].
  rewrite IH.
  destruct (decide (P x)) as [HP|HP], (decide (Q x)) as [HQ|HQ]; try done;
    exfalso; [apply HQ, HPQ, HP|apply HP, HPQ, HQ].
Qed.

(** For a request that spells the product id as [toString()] does, the
    handler is the [addToCart] of [CartController]. *)
Lemma addToCart_canonical db user body newId :
  RawIds.addToCart db user (RawIds.canonical body) newId
  = CartController.addToCart db user body newId.
Proof.
  unfold RawIds.addToCart, CartController.addToCart. simpl.
  destruct (products db !! CartController.productId body) as [product|];
    [|done].
  destruct (Product.stock product <? _); [done|].
  rewrite (list_find_iff (RawIds.sameSelection (RawIds.canonical body))
             (CartController.sameSelection body)); [done|].
  intros item. unfold RawIds.sameSelection, CartController.sameSelection.
  simpl. split; [intros ([= ->] & ? & ?); done|intros (-> & ? & ?); done].
Qed.

(** C5. Alice has three red shirts of size M in her cart and five are in
    stock. She adds three more of the same selection, the product id
    spelled in upper-case digits: the product is found, no item of the
    cart matches, and a second item of the same (product, size, color) is
    appended, six shirts in the cart in all. The same request with the id
    as [toString()] spells it finds the item and is refused, since six
    exceeds the stock. *)
Theorem addToCart_respelled_id :
  cartItems Scenario.withCart Scenario.alice
  = [CartItem.mk 50 Scenario.shirt 3 (Some "M"%string) (Some "red"%string) 499]
  ∧ Product.stock <$> products Scenario.withCart !! Scenario.shirt = Some 5
  ∧ (∃ db' cart',
       RawIds.addToCart Scenario.withCart Scenario.alice
         (RawIds.mkAddToCartBody (RawIds.Respelled Scenario.shirt) (Some 3)
            (Some "M"%string) (Some "red"%string)) 51
       = (db', Json 200 "Item added to cart" cart')
       ∧ carts db' !! User.id Scenario.alice = Some cart'
       ∧ Cart.items cart'
         = [CartItem.mk 50 Scenario.shirt 3 (Some "M"%string)
              (Some "red"%string) 499;
            CartItem.mk 51 Scenario.shirt 3 (Some "M"%string)
              (Some "red"%string) 499]
       ∧ ¬ merged (Cart.items cart'))
  ∧ RawIds.addToCart Scenario.withCart Scenario.alice
      (RawIds.mkAddToCartBody (RawIds.Canonical Scenario.shirt) (Some 3)
         (Some "M"%string) (Some "red"%string)) 51
    = (Scenario.withCart,
       Next (ErrorHandler "Insufficient stock for requested quantity" 400)).
Proof.
  do 2 (split; [by vm_compute|]). split; [|by vm_compute].
  do 2 eexists. split; [by vm_compute|]. split; [by vm_compute|].
  split; [done|]. unfold merged. simpl. intros Hnodup.
  apply NoDup_cons in Hnodup as [Hnotin _]. apply Hnotin, list_elem_of_here.
Qed.
